(** * HealthBot backend: the query, history and statistics handlers

    A shallow embedding of [backend/server.py].  The three handlers
    [ask_health_question], [get_chat_history] and [get_health_stats] are
    written in a small state-and-exception monad over a [World] that holds
    the [health_queries] collection and the bookkeeping of every contact
    with the outside (clock readings, uuid draws, completion requests,
    store operations).  What the outside answers is given by an [Env]. *)

From Stdlib Require Import String Ascii Bool ZArith NArith Lia List Permutation Sorted.
Import ListNotations.
Local Open Scope Z_scope.

(** ** Python values *)

(** A Python [str] is a sequence of Unicode code points. *)
Definition str : Type := list N.

Definition lit (s : string) : str :=
  map N_of_ascii (list_ascii_of_string s).

Definition str_eq_dec : forall a b : str, {a = b} + {a <> b} :=
  list_eq_dec N.eq_dec.

Definition str_eqb (a b : str) : bool :=
  if str_eq_dec a b then true else false.

(** [str.isspace] of one code point: the characters [str.strip()] removes. *)
Definition isspace (c : N) : bool :=
  (((9 <=? c) && (c <=? 13)) || ((28 <=? c) && (c <=? 32))
   || (c =? 133) || (c =? 160) || (c =? 5760)
   || ((8192 <=? c) && (c <=? 8202))
   || (c =? 8232) || (c =? 8233) || (c =? 8239) || (c =? 8287)
   || (c =? 12288))%N.

Fixpoint lstrip (s : str) : str :=
  match s with
  | [] => []
  | c :: s' => if isspace c then lstrip s' else s
  end.

Definition rstrip (s : str) : str := rev (lstrip (rev s)).

(** [s.strip()] *)
Definition strip (s : str) : str := rstrip (lstrip s).

(** Truth value of a [str]: the empty string is falsy. *)
Definition truthy (s : str) : bool :=
  match s with [] => false | _ => true end.

(** [x or d] for an [Optional[str]]: [None] and the empty string both give [d]. *)
Definition or_else (x : option str) (d : str) : str :=
  match x with
  | Some s => if truthy s then s else d
  | None => d
  end.

(** What a call into a library may hand back where a [str] is expected:
    a [str], or [None]. *)
Inductive pyval :=
| PyStr (s : str)
| PyNone.

Coercion PyStr : str >-> pyval.

(** A [datetime] in UTC, as microseconds since the epoch. *)
Definition datetime : Type := Z.

(** The store keeps a date as whole milliseconds since the epoch: the
    microseconds below a millisecond are dropped when a document is
    encoded. *)
Definition bson_datetime (dt : datetime) : datetime := dt - dt mod 1000.

(** Integers in a command sent to the store are encoded in 8 bytes at
    most; the driver raises [OverflowError] for anything from [2^63] on. *)
Definition int64_bound : Z := 2 ^ 63.

Definition microseconds_per_day : Z := 86400000000.

(** [dt.replace(hour=0, minute=0, second=0, microsecond=0)] *)
Definition replace_midnight (dt : datetime) : datetime :=
  dt - dt mod microseconds_per_day.

(** ** Models declared in the source *)

Record HealthQuery := {
  question : str;
  user_id : option str
}.

Record HealthResponse := {
  answer : str;
  query_id : str;
  timestamp : datetime
}.

Record ChatMessage := {
  cm_id : str;
  cm_user_id : str;
  cm_question : str;
  cm_answer : str;
  cm_timestamp : datetime;
  cm_category : option str
}.

Record ChatHistoryResponse := {
  messages : list ChatMessage;
  total : Z
}.

(** The dict returned by [get_health_stats]. *)
Record Stats := {
  total_queries : Z;
  unique_users : Z;
  recent_queries_24h : Z;
  status : str
}.

(** A document of the [health_queries] collection.  The only writer is
    [ask_health_question], which sets all six keys; [doc_answer] is
    whatever the completion handed back, and [doc_category] is an option
    because the reader uses [msg.get("category", ...)]. *)
Record Doc := {
  doc_id : str;
  doc_user_id : str;
  doc_question : str;
  doc_answer : pyval;
  doc_timestamp : datetime;
  doc_category : option str
}.

Definition HEALTH_SYSTEM_PROMPT : str := lit
"You are an AI-powered Public Health Assistant designed to provide accurate, helpful, and accessible health information to the general public. Your primary goals are:

1. **Disease Awareness & Prevention**: Provide clear information about common diseases, their symptoms, causes, and prevention methods
2. **Health Education**: Explain health concepts in simple, understandable language suitable for all education levels
3. **General Wellness**: Offer guidance on healthy lifestyle choices, nutrition, exercise, and mental health
4. **Symptom Information**: Help users understand symptoms and when to seek medical care

**Important Guidelines:**
- Always recommend consulting healthcare professionals for diagnosis and treatment
- Provide evidence-based information from reputable health organizations
- Use simple, clear language accessible to the general public
- Be empathetic and supportive in your responses
- Never provide specific medication dosages or replace professional medical advice
- Focus on prevention, awareness, and general health education
- If asked about serious symptoms, emphasize the importance of seeking immediate medical attention

**Response Format:**
- Keep responses concise but comprehensive
- Use bullet points for lists when helpful
- Include when to seek medical care when relevant
- End with encouraging, supportive language

Remember: You are promoting health awareness and education, not providing medical diagnosis or treatment.".

(** ** Exceptions *)

Inductive exn :=
| HTTPException (status_code : Z) (detail : str)
| RequestValidationError   (* the body does not fit [HealthQuery] *)
| PyMongoError             (* the store failed *)
| ValueError               (* the driver refused an argument *)
| OverflowError            (* an integer too large to be encoded *)
| ValidationError          (* a response model refused a field *)
| LlmError.                (* the completion call failed *)

(** Status code the framework answers with when a handler raises. *)
Definition http_status (e : exn) : Z :=
  match e with
  | HTTPException c _ => c
  | RequestValidationError => 422
  | _ => 500
  end.

Inductive outcome (A : Type) :=
| Return (a : A)
| Raise (e : exn).
Arguments Return {A} a.
Arguments Raise {A} e.

(** ** The world and its environment *)

(** The chat handle built by [LlmChat(...).with_model(...)]. *)
Record LlmChat := {
  api_key : option str;
  session_id : str;
  system_message : str;
  provider : str;
  model : str
}.

Record UserMessage := { text : str }.

(** What the outside answers.  Each oracle is indexed by how many times it
    was consulted before, so that two calls with equal arguments may be
    answered differently. *)
Record Env := {
  EMERGENT_LLM_KEY : option str;
  wall_clock : nat -> datetime;
  uuid4 : nat -> str;
  completion : nat -> LlmChat -> UserMessage -> option pyval;
  store_fault : nat -> bool
}.

Record World := {
  health_queries : list Doc;             (* in insertion order *)
  clock_reads : nat;
  uuid_draws : nat;
  llm_log : list (LlmChat * UserMessage);
  store_calls : nat
}.

(** ** The monad of handlers *)

Definition io (A : Type) : Type := World -> outcome A * World.

Definition ret {A} (a : A) : io A := fun w => (Return a, w).

Definition raise {A} (e : exn) : io A := fun w => (Raise e, w).

Definition bind {A B} (m : io A) (k : A -> io B) : io B :=
  fun w =>
    match m w with
    | (Return a, w') => k a w'
    | (Raise e, w') => (Raise e, w')
    end.

(** [try: m  except Exception as e: h e] *)
Definition try_except {A} (m : io A) (h : exn -> io A) : io A :=
  fun w =>
    match m w with
    | (Return a, w') => (Return a, w')
    | (Raise e, w') => h e w'
    end.

(** A step that returns or raises without touching the world. *)
Definition of_outcome {A} (o : outcome A) : io A := fun w => (o, w).

Notation "x <- m ;; k" := (bind m (fun x => k))
  (at level 61, m at next level, right associativity).

(** ** Primitive effects *)

Section Effects.
Variable env : Env.

(** [datetime.now(timezone.utc)] *)
Definition datetime_now : io datetime := fun w =>
  (Return (wall_clock env (clock_reads w)),
   {| health_queries := health_queries w;
      clock_reads := S (clock_reads w);
      uuid_draws := uuid_draws w;
      llm_log := llm_log w;
      store_calls := store_calls w |}).

(** [str(uuid.uuid4())] *)
Definition new_uuid : io str := fun w =>
  (Return (uuid4 env (uuid_draws w)),
   {| health_queries := health_queries w;
      clock_reads := clock_reads w;
      uuid_draws := S (uuid_draws w);
      llm_log := llm_log w;
      store_calls := store_calls w |}).

(** [await chat.send_message(user_message)] *)
Definition send_message (chat : LlmChat) (m : UserMessage) : io pyval := fun w =>
  let w' := {| health_queries := health_queries w;
               clock_reads := clock_reads w;
               uuid_draws := uuid_draws w;
               llm_log := llm_log w ++ [(chat, m)];
               store_calls := store_calls w |} in
  match completion env (length (llm_log w)) chat m with
  | Some a => (Return a, w')
  | None => (Raise LlmError, w')
  end.

(** One round trip to the store: it is counted, and it fails when the
    environment says so, leaving the collection as it was. *)
Definition store_op {A} (f : list Doc -> A * list Doc) : io A := fun w =>
  let fault := store_fault env (store_calls w) in
  let r := f (health_queries w) in
  ((if fault then Raise PyMongoError else Return (fst r)),
   {| health_queries := if fault then health_queries w else snd r;
      clock_reads := clock_reads w;
      uuid_draws := uuid_draws w;
      llm_log := llm_log w;
      store_calls := S (store_calls w) |}).
End Effects.

(** ** The document store driver *)

(** The three query documents the handlers build. *)
Inductive query :=
| q_all                          (* {} *)
| q_user_id (u : str)            (* {"user_id": u} *)
| q_timestamp_gte (t : datetime). (* {"timestamp": {"$gte": t}} *)

Definition matches (q : query) (d : Doc) : bool :=
  match q with
  | q_all => true
  | q_user_id u => str_eqb (doc_user_id d) u
  | q_timestamp_gte t => t <=? doc_timestamp d
  end.

(** [.sort("timestamp", -1)]: insertion of [d] before the first document
    that is not newer than it. *)
Fixpoint insert_desc (d : Doc) (l : list Doc) : list Doc :=
  match l with
  | [] => [d]
  | x :: l' =>
      if doc_timestamp x <=? doc_timestamp d then d :: l
      else x :: insert_desc d l'
  end.

Fixpoint sort_desc (l : list Doc) : list Doc :=
  match l with
  | [] => []
  | d :: l' => insert_desc d (sort_desc l')
  end.

(** A cursor is lazy: it records the query and its modifiers. *)
Record Cursor := {
  c_query : query;
  c_sort_desc : bool;
  c_skip : Z;
  c_limit : Z
}.

Definition find (q : query) : Cursor :=
  {| c_query := q; c_sort_desc := false; c_skip := 0; c_limit := 0 |}.

Definition sort_timestamp_desc (c : Cursor) : Cursor :=
  {| c_query := c_query c; c_sort_desc := true;
     c_skip := c_skip c; c_limit := c_limit c |}.

(** [Cursor.skip] refuses a negative argument; one that is too large is
    taken here and refused when the command is encoded, in [to_list]. *)
Definition skip (n : Z) (c : Cursor) : io Cursor :=
  if n <? 0 then raise ValueError
  else ret {| c_query := c_query c; c_sort_desc := c_sort_desc c;
              c_skip := n; c_limit := c_limit c |}.

Definition limit (n : Z) (c : Cursor) : Cursor :=
  {| c_query := c_query c; c_sort_desc := c_sort_desc c;
     c_skip := c_skip c; c_limit := n |}.

(** A document as the store keeps it. *)
Definition bson_doc (d : Doc) : Doc :=
  {| doc_id := doc_id d;
     doc_user_id := doc_user_id d;
     doc_question := doc_question d;
     doc_answer := doc_answer d;
     doc_timestamp := bson_datetime (doc_timestamp d);
     doc_category := doc_category d |}.

(** The documents a cursor yields: a limit of 0 is no limit, and a negative
    limit counts as its absolute value. *)
Definition run_cursor (c : Cursor) (coll : list Doc) : list Doc :=
  let found := filter (matches (c_query c)) coll in
  let sorted := if c_sort_desc c then sort_desc found else found in
  let rest := skipn (Z.to_nat (c_skip c)) sorted in
  if c_limit c =? 0 then rest else firstn (Z.to_nat (Z.abs (c_limit c))) rest.

Section Driver.
Variable env : Env.

(** [await coll.count_documents(q)] *)
Definition count_documents (q : query) : io Z :=
  store_op env (fun coll =>
    (Z.of_nat (length (filter (matches q) coll)), coll)).

(** [await coll.distinct("user_id")] *)
Definition distinct_user_id : io (list str) :=
  store_op env (fun coll => (nodup str_eq_dec (map doc_user_id coll), coll)).

(** [await coll.insert_one(d)]: the document is kept as it is encoded. *)
Definition insert_one (d : Doc) : io unit :=
  store_op env (fun coll => (tt, coll ++ [bson_doc d])).

(** [await cursor.to_list(length=n)]: a negative length is refused at
    once; then the find command is encoded, which fails when the skip or
    the limit of the cursor does not fit 8 bytes; only then is the store
    contacted. *)
Definition to_list (c : Cursor) (n : Z) : io (list Doc) :=
  if n <? 0 then raise ValueError
  else if (int64_bound <=? c_skip c) || (int64_bound <=? Z.abs (c_limit c))
  then raise OverflowError
  else store_op env (fun coll =>
         (firstn (Z.to_nat n) (run_cursor c coll), coll)).
End Driver.

(** ** The handlers *)

Definition empty_question_detail : str := lit "Question cannot be empty".

Definition query_error_detail : str := lit
  "Sorry, I encountered an error processing your health question. Please try again.".

Definition history_error_detail : str := lit "Error fetching chat history".

Definition stats_error_detail : str := lit "Error fetching statistics".

(** [ChatMessage(id=msg["id"], ..., category=msg.get("category", ...))]:
    the model refuses an answer that is not a [str]. *)
Definition to_ChatMessage (msg : Doc) : outcome ChatMessage :=
  match doc_answer msg with
  | PyStr a =>
      Return {| cm_id := doc_id msg;
                cm_user_id := doc_user_id msg;
                cm_question := doc_question msg;
                cm_answer := a;
                cm_timestamp := doc_timestamp msg;
                cm_category :=
                  match doc_category msg with
                  | Some c => Some c
                  | None => Some (lit "general_health")
                  end |}
  | PyNone => Raise ValidationError
  end.

(** The loop [for msg in messages_data: messages.append(ChatMessage(...))]:
    it stops at the first document that is refused. *)
Fixpoint to_ChatMessages (messages_data : list Doc) : outcome (list ChatMessage) :=
  match messages_data with
  | [] => Return []
  | msg :: rest =>
      match to_ChatMessage msg with
      | Raise e => Raise e
      | Return m =>
          match to_ChatMessages rest with
          | Raise e => Raise e
          | Return ms => Return (m :: ms)
          end
      end
  end.

(** [HealthResponse(answer=..., query_id=..., timestamp=...)]: the model
    refuses an answer that is not a [str]. *)
Definition to_HealthResponse (ai_response : pyval) (query_id : str)
  (now : datetime) : outcome HealthResponse :=
  match ai_response with
  | PyStr a => Return {| answer := a; query_id := query_id; timestamp := now |}
  | PyNone => Raise ValidationError
  end.

Section Handlers.
Variable env : Env.

Definition ask_health_question (query : HealthQuery) : io HealthResponse :=
  if negb (truthy (question query)) || negb (truthy (strip (question query)))
  then raise (HTTPException 422 empty_question_detail)
  else
    try_except
      (u <- new_uuid env ;;
       let session_id := lit "health_chat_" ++ u in
       let chat := {| api_key := EMERGENT_LLM_KEY env;
                      session_id := session_id;
                      system_message := HEALTH_SYSTEM_PROMPT;
                      provider := lit "openai";
                      model := lit "gpt-4o" |} in
       let user_message := {| text := strip (question query) |} in
       ai_response <- send_message env chat user_message ;;
       query_id <- new_uuid env ;;
       let user_id := or_else (user_id query) (lit "anonymous") in
       now <- datetime_now env ;;
       let chat_message := {| doc_id := query_id;
                              doc_user_id := user_id;
                              doc_question := question query;
                              doc_answer := ai_response;
                              doc_timestamp := now;
                              doc_category := Some (lit "general_health") |} in
       _ <- insert_one env chat_message ;;
       now' <- datetime_now env ;;
       of_outcome (to_HealthResponse ai_response query_id now'))
      (fun _ => raise (HTTPException 500 query_error_detail)).

Definition get_chat_history (user_id : str) (limit_ skip_ : Z)
  : io ChatHistoryResponse :=
  try_except
    (total <- count_documents env (q_user_id user_id) ;;
     cursor <- skip skip_ (sort_timestamp_desc (find (q_user_id user_id))) ;;
     let cursor := limit limit_ cursor in
     messages_data <- to_list env cursor limit_ ;;
     messages <- of_outcome (to_ChatMessages messages_data) ;;
     ret {| messages := messages; total := total |})
    (fun _ => raise (HTTPException 500 history_error_detail)).

Definition get_health_stats : io Stats :=
  try_except
    (total_queries <- count_documents env q_all ;;
     users <- distinct_user_id env ;;
     let unique_users := Z.of_nat (length users) in
     now <- datetime_now env ;;
     let yesterday := replace_midnight now in
     recent_queries <- count_documents env (q_timestamp_gte yesterday) ;;
     ret {| total_queries := total_queries;
            unique_users := unique_users;
            recent_queries_24h := recent_queries;
            status := lit "active" |})
    (fun _ => raise (HTTPException 500 stats_error_detail)).

(** *** The routes, as the framework calls the handlers *)

(** A JSON body of [POST /api/health/query]: either key may be missing. *)
Record QueryBody := {
  body_question : option str;
  body_user_id : option str
}.

(** [question: str] has no default, so a body without it is refused
    before the handler runs. *)
Definition post_health_query (body : QueryBody) : io HealthResponse :=
  match body_question body with
  | None => raise RequestValidationError
  | Some q => ask_health_question {| question := q; user_id := body_user_id body |}
  end.

(** [GET /api/health/history/{user_id}] with [limit: int = 20] and
    [skip: int = 0]. *)
Definition get_health_history (user_id : str) (limit_ skip_ : option Z)
  : io ChatHistoryResponse :=
  get_chat_history user_id
    (match limit_ with Some n => n | None => 20 end)
    (match skip_ with Some n => n | None => 0 end).
End Handlers.

(** ** Sample environments, used to run the handlers on concrete inputs *)

Definition initial_world : World :=
  {| health_queries := []; clock_reads := 0; uuid_draws := 0;
     llm_log := []; store_calls := 0 |}.

(** 2024-01-01T00:00:00Z, in microseconds. *)
Definition new_year_2024 : datetime := 1704067200000000.

(** A calm environment: the clock advances by one second per reading, the
    completion always answers, the store never fails. *)
Definition calm_env : Env :=
  {| EMERGENT_LLM_KEY := Some (lit "sk-test");
     wall_clock := fun k => new_year_2024 + 1000000 * Z.of_nat k;
     uuid4 := fun k => lit "uuid-" ++ [(48 + N.of_nat k)%N];
     completion := fun _ _ _ => Some (PyStr (lit "Rest and drink water."));
     store_fault := fun _ => false |}.

(** As [calm_env], but every store operation fails. *)
Definition broken_store_env : Env :=
  {| EMERGENT_LLM_KEY := EMERGENT_LLM_KEY calm_env;
     wall_clock := wall_clock calm_env;
     uuid4 := uuid4 calm_env;
     completion := completion calm_env;
     store_fault := fun _ => true |}.

(** [env] with the [k]-th uuid draw replaced by [u]. *)
Definition with_uuid (env : Env) (k : nat) (u : str) : Env :=
  {| EMERGENT_LLM_KEY := EMERGENT_LLM_KEY env;
     wall_clock := wall_clock env;
     uuid4 := fun i => if Nat.eqb i k then u else uuid4 env i;
     completion := completion env;
     store_fault := store_fault env |}.

(** The chat handle [ask_health_question] builds around a uuid draw. *)
Definition chat_for (env : Env) (u : str) : LlmChat :=
  {| api_key := EMERGENT_LLM_KEY env;
     session_id := lit "health_chat_" ++ u;
     system_message := HEALTH_SYSTEM_PROMPT;
     provider := lit "openai";
     model := lit "gpt-4o" |}.

(** ** Notions used in the statements *)

(** The world after the completion was asked and failed. *)
Definition after_llm_failure (env : Env) (query : HealthQuery) (w : World) : World :=
  {| health_queries := health_queries w;
     clock_reads := clock_reads w;
     uuid_draws := S (uuid_draws w);
     llm_log := llm_log w ++ [(chat_for env (uuid4 env (uuid_draws w)),
                               {| text := strip (question query) |})];
     store_calls := store_calls w |}.

(** The document [ask_health_question] hands to [insert_one]. *)
Definition chat_message_of (env : Env) (query : HealthQuery) (w : World)
  (ai_response : pyval) : Doc :=
  {| doc_id := uuid4 env (S (uuid_draws w));
     doc_user_id := or_else (user_id query) (lit "anonymous");
     doc_question := question query;
     doc_answer := ai_response;
     doc_timestamp := wall_clock env (clock_reads w);
     doc_category := Some (lit "general_health") |}.

(** The world after the insert was tried and failed. *)
Definition after_insert_failure (env : Env) (query : HealthQuery) (w : World) : World :=
  {| health_queries := health_queries w;
     clock_reads := S (clock_reads w);
     uuid_draws := S (S (uuid_draws w));
     llm_log := llm_log w ++ [(chat_for env (uuid4 env (uuid_draws w)),
                               {| text := strip (question query) |})];
     store_calls := S (store_calls w) |}.

(** The world after the insert succeeded and the clock was read again. *)
Definition after_success (env : Env) (query : HealthQuery) (w : World)
  (ai_response : pyval) : World :=
  {| health_queries := health_queries w ++
                       [bson_doc (chat_message_of env query w ai_response)];
     clock_reads := S (S (clock_reads w));
     uuid_draws := S (S (uuid_draws w));
     llm_log := llm_log w ++ [(chat_for env (uuid4 env (uuid_draws w)),
                               {| text := strip (question query) |})];
     store_calls := S (store_calls w) |}.

(** The world after [n] more store operations that wrote nothing. *)
Definition after_reads (n : nat) (w : World) : World :=
  {| health_queries := health_queries w;
     clock_reads := clock_reads w;
     uuid_draws := uuid_draws w;
     llm_log := llm_log w;
     store_calls := n + store_calls w |}.

(** The documents of [user_id] in the collection. *)
Definition docs_of (user_id : str) (coll : list Doc) : list Doc :=
  filter (matches (q_user_id user_id)) coll.

(** The page [get_chat_history] reads. *)
Definition page (user_id : str) (limit_ skip_ : Z) (coll : list Doc) : list Doc :=
  firstn (Z.to_nat limit_)
    (run_cursor {| c_query := q_user_id user_id; c_sort_desc := true;
                   c_skip := skip_; c_limit := limit_ |} coll).

Definition history_error : exn := HTTPException 500 history_error_detail.

Definition not_older (a b : Doc) : Prop := doc_timestamp b <= doc_timestamp a.

Definition newer (a b : Doc) : Prop := doc_timestamp b < doc_timestamp a.

(** A stored record stamped [t] milliseconds into 2024. *)
Definition sample_doc (id user : string) (t : Z) : Doc :=
  {| doc_id := lit id; doc_user_id := lit user;
     doc_question := lit "What is flu?";
     doc_answer := lit "Rest and drink water.";
     doc_timestamp := new_year_2024 + 1000 * t;
     doc_category := Some (lit "general_health") |}.

(** The message the history shows for [sample_doc id user t]. *)
Definition sample_message (id user : string) (t : Z) : ChatMessage :=
  {| cm_id := lit id; cm_user_id := lit user;
     cm_question := lit "What is flu?";
     cm_answer := lit "Rest and drink water.";
     cm_timestamp := new_year_2024 + 1000 * t;
     cm_category := Some (lit "general_health") |}.

(** Three records of ["u1"] stored out of order, among one of ["u2"]. *)
Definition sample_world : World :=
  {| health_queries := [sample_doc "b" "u1" 20; sample_doc "x" "u2" 25;
                        sample_doc "c" "u1" 30; sample_doc "a" "u1" 10];
     clock_reads := 0; uuid_draws := 0; llm_log := []; store_calls := 0 |}.

(** A query parameter that is either left out or fits 8 bytes without
    being negative. *)
Definition absent_or_in_range (x : option Z) : Prop :=
  match x with Some n => 0 <= n < int64_bound | None => True end.

(** The answer of a document is text. *)
Definition has_text_answer (d : Doc) : Prop :=
  exists a : str, doc_answer d = PyStr a.

(** The message shown for a document whose answer is the text [a]. *)
Definition message_of (d : Doc) (a : str) : ChatMessage :=
  {| cm_id := doc_id d;
     cm_user_id := doc_user_id d;
     cm_question := doc_question d;
     cm_answer := a;
     cm_timestamp := doc_timestamp d;
     cm_category :=
       match doc_category d with
       | Some c => Some c
       | None => Some (lit "general_health")
       end |}.


(** As [calm_env], but the completion hands back [None]. *)
Definition none_answer_env : Env :=
  {| EMERGENT_LLM_KEY := EMERGENT_LLM_KEY calm_env;
     wall_clock := wall_clock calm_env;
     uuid4 := uuid4 calm_env;
     completion := fun _ _ _ => Some PyNone;
     store_fault := store_fault calm_env |}.

(** [sample_world] after a query of ["u1"] for which the completion
    handed back [None]. *)
Definition none_answer_world : World :=
  snd (ask_health_question none_answer_env
         {| question := lit "What is flu?"; user_id := Some (lit "u1") |}
         sample_world).


(** The world after the clock was read once more. *)
Definition after_clock_read (w : World) : World :=
  {| health_queries := health_queries w;
     clock_reads := S (clock_reads w);
     uuid_draws := uuid_draws w;
     llm_log := llm_log w;
     store_calls := store_calls w |}.

(** The statistics of a collection for a clock reading [now]. *)
Definition stats_of (coll : list Doc) (now : datetime) : Stats :=
  {| total_queries := Z.of_nat (length (filter (matches q_all) coll));
     unique_users := Z.of_nat (length (nodup str_eq_dec (map doc_user_id coll)));
     recent_queries_24h :=
       Z.of_nat (length (filter (matches (q_timestamp_gte (replace_midnight now)))
                           coll));
     status := lit "active" |}.

Definition stats_error : exn := HTTPException 500 stats_error_detail.

(** An environment whose clock reads 23:59:59 on 2024-01-01 first and then
    advances by two seconds per reading. *)
Definition midnight_env : Env :=
  {| EMERGENT_LLM_KEY := EMERGENT_LLM_KEY calm_env;
     wall_clock := fun k => new_year_2024 + 86399000000 + 2000000 * Z.of_nat k;
     uuid4 := uuid4 calm_env;
     completion := completion calm_env;
     store_fault := store_fault calm_env |}.

(** ** The liveness and status check endpoints *)

(** [GET /api/]: the dict with its single key [message]. *)
Definition root : str := lit "AI-Powered Public Health Chatbot API".

Record StatusCheck := {
  sc_id : str;
  sc_client_name : str;
  sc_timestamp : datetime
}.

Record StatusCheckCreate := { client_name : str }.

(** The database holds a second collection, [status_checks], beside
    [health_queries]; both are reached through the same client, so a status
    operation is counted and may fail like any other store operation. *)
Record Database := {
  queries : World;
  status_checks : list StatusCheck       (* in insertion order *)
}.

Definition dbio (A : Type) : Type := Database -> outcome A * Database.

Definition db_ret {A} (a : A) : dbio A := fun db => (Return a, db).

Definition db_bind {A B} (m : dbio A) (k : A -> dbio B) : dbio B :=
  fun db =>
    match m db with
    | (Return a, db') => k a db'
    | (Raise e, db') => (Raise e, db')
    end.

Notation "x <~ m ;; k" := (db_bind m (fun x => k))
  (at level 61, m at next level, right associativity).

(** An effect on the world of the query handlers, run inside a database. *)
Definition lift {A} (m : io A) : dbio A := fun db =>
  (fst (m (queries db)),
   {| queries := snd (m (queries db)); status_checks := status_checks db |}).

(** A status check as the store keeps it. *)
Definition bson_status_check (d : StatusCheck) : StatusCheck :=
  {| sc_id := sc_id d;
     sc_client_name := sc_client_name d;
     sc_timestamp := bson_datetime (sc_timestamp d) |}.

Section StatusDriver.
Variable env : Env.

(** One round trip to the store on behalf of [status_checks]. *)
Definition status_store_op {A} (f : list StatusCheck -> A * list StatusCheck)
  : dbio A := fun db =>
  let w := queries db in
  let fault := store_fault env (store_calls w) in
  let r := f (status_checks db) in
  ((if fault then Raise PyMongoError else Return (fst r)),
   {| queries := {| health_queries := health_queries w;
                    clock_reads := clock_reads w;
                    uuid_draws := uuid_draws w;
                    llm_log := llm_log w;
                    store_calls := S (store_calls w) |};
      status_checks := if fault then status_checks db else snd r |}).

(** [await db.status_checks.insert_one(d)]: the check is kept as it is
    encoded. *)
Definition status_insert_one (d : StatusCheck) : dbio unit :=
  status_store_op (fun coll => (tt, coll ++ [bson_status_check d])).

(** [await db.status_checks.find().to_list(n)] for a literal [n >= 0]:
    the first [n] documents in the order they were stored. *)
Definition status_find_to_list (n : nat) : dbio (list StatusCheck) :=
  status_store_op (fun coll => (firstn n coll, coll)).

(** A [StatusCheck] built from the request's dict: the two default
    factories draw the id and read the clock. *)
Definition new_StatusCheck (name : str) : dbio StatusCheck :=
  id <~ lift (new_uuid env) ;;
  now <~ lift (datetime_now env) ;;
  db_ret {| sc_id := id; sc_client_name := name; sc_timestamp := now |}.

(** [POST /api/status]: no [try], so a store failure is raised as it is. *)
Definition create_status_check (input : StatusCheckCreate) : dbio StatusCheck :=
  status_obj <~ new_StatusCheck (client_name input) ;;
  _ <~ status_insert_one status_obj ;;
  db_ret status_obj.

(** [GET /api/status] *)
Definition get_status_checks : dbio (list StatusCheck) :=
  status_checks <~ status_find_to_list 1000 ;;
  db_ret (map (fun status_check => status_check) status_checks).
End StatusDriver.

(** ** Further notions used in the statements *)

(** The three kinds of outcome a handler with a [try] can have. *)
Definition query_error : exn := HTTPException 500 query_error_detail.

Definition empty_question_error : exn := HTTPException 422 empty_question_detail.

(** No whitespace at either end. *)
Definition trimmed (s : str) : Prop :=
  match s with
  | [] => True
  | c :: _ => isspace c = false /\ isspace (last s c) = false
  end.

(** What every record written by [ask_health_question] looks like. *)
Definition well_formed_doc (d : Doc) : Prop :=
  strip (doc_question d) <> [] /\
  doc_user_id d <> [] /\
  doc_category d = Some (lit "general_health").

(** Every stored identifier is a uuid that was drawn, each draw used for at
    most one record. *)
Definition ids_drawn (env : Env) (w : World) : Prop :=
  exists ks : list nat,
    map doc_id (health_queries w) = map (uuid4 env) ks /\
    NoDup ks /\
    Forall (fun k => (k < uuid_draws w)%nat) ks.

(** The effective user of a query: [query.user_id or "anonymous"]. *)
Definition effective_user (query : HealthQuery) : str :=
  or_else (user_id query) (lit "anonymous").

(** The number of records whose timestamp is later than [now] minus 24
    hours. *)
Definition within_24h (now : datetime) (coll : list Doc) : Z :=
  Z.of_nat (length (filter (fun d => now - microseconds_per_day <? doc_timestamp d)
                      coll)).

(** The world after two queries were answered in [calm_env]. *)
Definition two_queries_world : World :=
  snd (ask_health_question calm_env
         {| question := lit "Is fever dangerous?"; user_id := Some (lit "u2") |}
         (snd (ask_health_question calm_env
                 {| question := lit "What is flu?"; user_id := Some (lit "u1") |}
                 initial_world))).

(** As [calm_env], but the completion always fails. *)
Definition failing_llm_env : Env :=
  {| EMERGENT_LLM_KEY := EMERGENT_LLM_KEY calm_env;
     wall_clock := wall_clock calm_env;
     uuid4 := uuid4 calm_env;
     completion := fun _ _ _ => None;
     store_fault := store_fault calm_env |}.

Definition sample_database : Database :=
  {| queries := sample_world;
     status_checks := [{| sc_id := lit "s1"; sc_client_name := lit "web";
                          sc_timestamp := new_year_2024 |}] |}.

(** A database whose [status_checks] holds [n] copies of a check. *)
Definition crowded_database (n : nat) : Database :=
  {| queries := initial_world;
     status_checks := repeat {| sc_id := lit "s1"; sc_client_name := lit "web";
                                sc_timestamp := new_year_2024 |} n |}.

(** The check [create_status_check] builds in a world. *)
Definition status_check_of (env : Env) (input : StatusCheckCreate) (w : World)
  : StatusCheck :=
  {| sc_id := uuid4 env (uuid_draws w);
     sc_client_name := client_name input;
     sc_timestamp := wall_clock env (clock_reads w) |}.

(** The world after [create_status_check]: one uuid drawn, one clock
    reading, one store operation. *)
Definition after_status_check (w : World) : World :=
  {| health_queries := health_queries w;
     clock_reads := S (clock_reads w);
     uuid_draws := S (uuid_draws w);
     llm_log := llm_log w;
     store_calls := S (store_calls w) |}.

(** [w] with another collection in place of [health_queries]. *)
Definition with_collection (w : World) (coll : list Doc) : World :=
  {| health_queries := coll;
     clock_reads := clock_reads w;
     uuid_draws := uuid_draws w;
     llm_log := llm_log w;
     store_calls := store_calls w |}.

(** * Properties *)

(** ** Trimming and validation *)

Lemma strip_nil : strip [] = [].
Proof. reflexivity. Qed.

Lemma strip_nonempty_truthy (s : str) :
  strip s <> [] -> truthy s = true /\ truthy (strip s) = true.
Proof.
  intro H. split.
  - destruct s; [now elim H | reflexivity].
  - destruct (strip s); [now elim H | reflexivity].
Qed.

Lemma strip_empty_rejected (s : str) :
  strip s = [] -> negb (truthy s) || negb (truthy (strip s)) = true.
Proof.
  intro H. rewrite H. simpl. apply orb_true_r.
Qed.

(** ** One run of [ask_health_question], step by step *)

Lemma ask_health_question_run (env : Env) (query : HealthQuery) (w : World) :
  strip (question query) <> [] ->
  ask_health_question env query w =
  match completion env (length (llm_log w))
          (chat_for env (uuid4 env (uuid_draws w)))
          {| text := strip (question query) |} with
  | None =>
      (Raise (HTTPException 500 query_error_detail),
       after_llm_failure env query w)
  | Some ai_response =>
      if store_fault env (store_calls w)
      then (Raise (HTTPException 500 query_error_detail),
            after_insert_failure env query w)
      else match ai_response with
           | PyStr a =>
               (Return {| answer := a;
                          query_id := uuid4 env (S (uuid_draws w));
                          timestamp := wall_clock env (S (clock_reads w)) |},
                after_success env query w ai_response)
           | PyNone =>
               (Raise (HTTPException 500 query_error_detail),
                after_success env query w ai_response)
           end
  end.
Proof.
  intro Hq.
  destruct (strip_nonempty_truthy _ Hq) as [Ht Hs].
  unfold ask_health_question. rewrite Ht, Hs. cbn [negb orb].
  unfold try_except, bind, new_uuid, send_message. cbn [uuid_draws llm_log].
  fold (chat_for env (uuid4 env (uuid_draws w))).
  destruct (completion env _ _ _) as [ai|]; [|reflexivity].
  unfold datetime_now, insert_one, store_op, of_outcome, raise. cbn.
  destruct (store_fault env (store_calls w)); [reflexivity|].
  destruct ai; reflexivity.
Qed.

Lemma ask_health_question_rejects (env : Env) (query : HealthQuery) (w : World) :
  strip (question query) = [] ->
  ask_health_question env query w =
  (Raise (HTTPException 422 empty_question_detail), w).
Proof.
  intro H. unfold ask_health_question.
  rewrite (strip_empty_rejected _ H). reflexivity.
Qed.

(** A successful query went through every step. *)
Lemma ask_health_question_success_inv (env : Env) (query : HealthQuery)
  (w w' : World) (resp : HealthResponse) :
  ask_health_question env query w = (Return resp, w') ->
  strip (question query) <> [] /\
  exists ai_response : str,
    completion env (length (llm_log w))
      (chat_for env (uuid4 env (uuid_draws w)))
      {| text := strip (question query) |} = Some (PyStr ai_response) /\
    store_fault env (store_calls w) = false /\
    resp = {| answer := ai_response;
              query_id := uuid4 env (S (uuid_draws w));
              timestamp := wall_clock env (S (clock_reads w)) |} /\
    w' = after_success env query w ai_response.
Proof.
  intro H.
  destruct (str_eq_dec (strip (question query)) []) as [E|NE].
  - rewrite (ask_health_question_rejects _ _ _ E) in H. discriminate.
  - split; [exact NE|].
    rewrite (ask_health_question_run _ _ _ NE) in H.
    destruct (completion env _ _ _) as [ai|]; [|discriminate].
    destruct (store_fault env (store_calls w)); [discriminate|].
    destruct ai as [a|]; [|discriminate].
    injection H as <- <-. exists a. repeat split.
Qed.

(** Every successful query stores the question as it was received. *)
Lemma ask_health_question_stores_raw (env : Env) (query : HealthQuery)
  (w w' : World) (resp : HealthResponse) :
  ask_health_question env query w = (Return resp, w') ->
  exists chat_message,
    health_queries w' = health_queries w ++ [chat_message] /\
    doc_question chat_message = question query.
Proof.
  intro H.
  destruct (ask_health_question_success_inv _ _ _ _ _ H)
    as (_ & ai & _ & _ & _ & ->).
  eexists. split; reflexivity.
Qed.

(** ** Claims about [ask_health_question] *)

(** C1.  The claim says a successful query persists a record whose question
    is the trimmed text.  On the question [" hi "] the handler succeeds and
    asks the completion the trimmed ["hi"], but the record it stores holds
    the untrimmed [" hi "]. *)
Theorem ask_health_question_stores_untrimmed :
  let query := {| question := lit " hi "; user_id := Some (lit "u1") |} in
  let run := ask_health_question calm_env query initial_world in
  (exists resp, fst run = Return resp) /\
  map doc_question (health_queries (snd run)) = [lit " hi "] /\
  map (fun p => text (snd p)) (llm_log (snd run)) = [lit "hi"] /\
  strip (question query) = lit "hi" /\
  lit " hi " <> strip (question query).
Proof.
  cbv zeta. split; [|split; [|split; [|split]]].
  - eexists. vm_compute. reflexivity.
  - vm_compute. reflexivity.
  - vm_compute. reflexivity.
  - vm_compute. reflexivity.
  - vm_compute. discriminate.
Qed.

(** C2.  When the question is valid and the completion answers, but the
    insert fails, the caller gets the generic status-500 error, the
    collection is what it was before, and nothing that is left (neither the
    error nor the world) carries the generated answer. *)
Theorem insert_failure_discards_answer (env : Env) (query : HealthQuery)
  (w : World) (ai_response : pyval) :
  strip (question query) <> [] ->
  completion env (length (llm_log w))
    (chat_for env (uuid4 env (uuid_draws w)))
    {| text := strip (question query) |} = Some ai_response ->
  store_fault env (store_calls w) = true ->
  ask_health_question env query w =
    (Raise (HTTPException 500 query_error_detail),
     after_insert_failure env query w) /\
  health_queries (after_insert_failure env query w) = health_queries w.
Proof.
  intros Hq Hc Hf.
  rewrite (ask_health_question_run _ _ _ Hq), Hc, Hf.
  split; reflexivity.
Qed.

Lemma insert_failure_discards_answer_witness :
  ask_health_question broken_store_env
    {| question := lit "What is flu?"; user_id := None |} initial_world =
    (Raise (HTTPException 500 query_error_detail),
     after_insert_failure broken_store_env
       {| question := lit "What is flu?"; user_id := None |} initial_world) /\
  health_queries (after_insert_failure broken_store_env
       {| question := lit "What is flu?"; user_id := None |} initial_world) =
  health_queries initial_world.
Proof.
  apply (insert_failure_discards_answer broken_store_env
           {| question := lit "What is flu?"; user_id := None |}
           initial_world (lit "Rest and drink water.")).
  - vm_compute. discriminate.
  - reflexivity.
  - reflexivity.
Defined.

(** C4.  A body without a question, and a question that is empty or only
    whitespace, are answered with status 422, and the world is left exactly
    as it was: no completion request was logged, no store operation was
    counted, no record was written. *)
Theorem empty_question_rejected_untouched (env : Env) (body : QueryBody)
  (w : World) :
  body_question body = None \/
  (exists q, body_question body = Some q /\ strip q = []) ->
  exists e,
    post_health_query env body w = (Raise e, w) /\ http_status e = 422.
Proof.
  intros [Hnone | (q & Hq & Hs)]; unfold post_health_query.
  - rewrite Hnone. exists RequestValidationError. split; reflexivity.
  - rewrite Hq. exists (HTTPException 422 empty_question_detail).
    split; [|reflexivity].
    now apply ask_health_question_rejects.
Qed.

Lemma empty_question_rejected_untouched_witness :
  (exists e, post_health_query calm_env
               {| body_question := Some ([] : str); body_user_id := Some (lit "u1") |}
               initial_world = (Raise e, initial_world) /\ http_status e = 422) /\
  (exists e, post_health_query calm_env
               {| body_question := Some (lit "   "); body_user_id := Some (lit "u1") |}
               initial_world = (Raise e, initial_world) /\ http_status e = 422) /\
  (exists e, post_health_query calm_env
               {| body_question := None; body_user_id := Some (lit "u1") |}
               initial_world = (Raise e, initial_world) /\ http_status e = 422).
Proof.
  split; [|split].
  - apply empty_question_rejected_untouched. right.
    exists ([] : str). split; reflexivity.
  - apply empty_question_rejected_untouched. right.
    exists (lit "   "). split; reflexivity.
  - apply empty_question_rejected_untouched. left. reflexivity.
Defined.

(** C9.  The session identifier is built from the first uuid drawn.  Replace
    that draw by any other value: as long as the completion gives the same
    answer under both tokens, the outcome handed to the caller (response or
    error) and the collection afterwards are the same. *)
Theorem session_token_not_observable (env : Env) (query : HealthQuery)
  (w : World) (u' : str) :
  completion env (length (llm_log w)) (chat_for env u')
    {| text := strip (question query) |} =
  completion env (length (llm_log w)) (chat_for env (uuid4 env (uuid_draws w)))
    {| text := strip (question query) |} ->
  fst (ask_health_question (with_uuid env (uuid_draws w) u') query w) =
  fst (ask_health_question env query w) /\
  health_queries (snd (ask_health_question (with_uuid env (uuid_draws w) u') query w)) =
  health_queries (snd (ask_health_question env query w)).
Proof.
  intro Hc.
  destruct (str_eq_dec (strip (question query)) []) as [E|NE].
  - rewrite !(ask_health_question_rejects _ _ _ E). split; reflexivity.
  - rewrite !(ask_health_question_run _ _ _ NE).
    assert (Hk : uuid4 (with_uuid env (uuid_draws w) u') (uuid_draws w) = u').
    { unfold with_uuid. cbn [uuid4]. now rewrite Nat.eqb_refl. }
    assert (Hs : uuid4 (with_uuid env (uuid_draws w) u') (S (uuid_draws w)) =
                 uuid4 env (S (uuid_draws w))).
    { unfold with_uuid. cbn [uuid4].
      destruct (Nat.eqb_spec (S (uuid_draws w)) (uuid_draws w)); [lia|reflexivity]. }
    rewrite Hk, Hs.
    change (chat_for (with_uuid env (uuid_draws w) u') u') with (chat_for env u').
    change (completion (with_uuid env (uuid_draws w) u')) with (completion env).
    change (store_fault (with_uuid env (uuid_draws w) u')) with (store_fault env).
    change (wall_clock (with_uuid env (uuid_draws w) u')) with (wall_clock env).
    rewrite Hc. clear Hc.
    destruct (completion env _ _ _) as [ai|]; [|split; reflexivity].
    destruct (store_fault env (store_calls w)); [split; reflexivity|].
    destruct ai as [a|]; cbn [fst snd]; (split; [reflexivity|]);
      unfold after_success, chat_message_of; cbn [health_queries];
      rewrite Hs; reflexivity.
Qed.

Lemma session_token_not_observable_witness :
  fst (ask_health_question (with_uuid calm_env 0 (lit "another-token"))
         {| question := lit "What is flu?"; user_id := Some (lit "u1") |}
         initial_world) =
  fst (ask_health_question calm_env
         {| question := lit "What is flu?"; user_id := Some (lit "u1") |}
         initial_world) /\
  health_queries
    (snd (ask_health_question (with_uuid calm_env 0 (lit "another-token"))
            {| question := lit "What is flu?"; user_id := Some (lit "u1") |}
            initial_world)) =
  health_queries
    (snd (ask_health_question calm_env
            {| question := lit "What is flu?"; user_id := Some (lit "u1") |}
            initial_world)).
Proof.
  apply (session_token_not_observable calm_env
           {| question := lit "What is flu?"; user_id := Some (lit "u1") |}
           initial_world (lit "another-token")).
  reflexivity.
Defined.





(** ** One run of [get_chat_history] *)

Lemma get_chat_history_run (env : Env) (user_id : str) (limit_ skip_ : Z)
  (w : World) :
  get_chat_history env user_id limit_ skip_ w =
  if store_fault env (store_calls w) then (Raise history_error, after_reads 1 w)
  else if skip_ <? 0 then (Raise history_error, after_reads 1 w)
  else if limit_ <? 0 then (Raise history_error, after_reads 1 w)
  else if (int64_bound <=? skip_) || (int64_bound <=? limit_)
       then (Raise history_error, after_reads 1 w)
  else if store_fault env (S (store_calls w))
       then (Raise history_error, after_reads 2 w)
       else match to_ChatMessages (page user_id limit_ skip_ (health_queries w)) with
            | Return messages_ =>
                (Return
                   {| messages := messages_;
                      total := Z.of_nat (length (docs_of user_id (health_queries w))) |},
                 after_reads 2 w)
            | Raise _ => (Raise history_error, after_reads 2 w)
            end.
Proof.
  unfold get_chat_history, try_except, bind, count_documents, store_op.
  cbn [fst snd].
  destruct (store_fault env (store_calls w)); [reflexivity|].
  unfold skip. destruct (skip_ <? 0); [reflexivity|].
  unfold ret, to_list. destruct (Z.ltb_spec limit_ 0); [reflexivity|].
  cbn [c_skip c_limit limit sort_timestamp_desc find].
  rewrite (Z.abs_eq limit_) by assumption.
  destruct ((int64_bound <=? skip_) || (int64_bound <=? limit_)); [reflexivity|].
  unfold store_op, of_outcome. cbn [store_calls health_queries fst snd].
  destruct (store_fault env (S (store_calls w))); [reflexivity|].
  fold (page user_id limit_ skip_ (health_queries w)).
  destruct (to_ChatMessages _); reflexivity.
Qed.

(** What the message models accept and what they make of it. *)
Lemma to_ChatMessage_inv (d : Doc) (m : ChatMessage) :
  to_ChatMessage d = Return m ->
  exists a : str, doc_answer d = PyStr a /\ m = message_of d a.
Proof.
  unfold to_ChatMessage. destruct (doc_answer d) as [a|]; [|discriminate].
  intro H. injection H as <-. now exists a.
Qed.

Lemma to_ChatMessage_text (d : Doc) (a : str) :
  doc_answer d = PyStr a -> to_ChatMessage d = Return (message_of d a).
Proof.
  unfold to_ChatMessage. now intros ->.
Qed.

Lemma to_ChatMessages_inv (l : list Doc) (ms : list ChatMessage) :
  to_ChatMessages l = Return ms ->
  Forall2 (fun d m => to_ChatMessage d = Return m) l ms.
Proof.
  revert ms. induction l as [|d l IH]; cbn; intros ms H.
  - injection H as <-. constructor.
  - destruct (to_ChatMessage d) as [m|] eqn:Ed; [|discriminate].
    destruct (to_ChatMessages l) as [ms'|]; [|discriminate].
    injection H as <-. constructor; [exact Ed | now apply IH].
Qed.


Lemma to_ChatMessages_text (l : list Doc) :
  Forall has_text_answer l -> exists ms, to_ChatMessages l = Return ms.
Proof.
  induction 1 as [|d l (a & Ha) _ (ms & IH)]; cbn; [now eexists|].
  rewrite (to_ChatMessage_text _ _ Ha), IH. now eexists.
Qed.

(** With non-negative arguments the page is the plain window of the
    sorted documents. *)
Lemma page_window (user_id : str) (limit_ skip_ : Z) (coll : list Doc) :
  0 <= limit_ ->
  page user_id limit_ skip_ coll =
  firstn (Z.to_nat limit_)
    (skipn (Z.to_nat skip_) (sort_desc (docs_of user_id coll))).
Proof.
  intro Hl. unfold page, run_cursor, docs_of. cbn.
  destruct (Z.eqb_spec limit_ 0) as [->|Hz]; [reflexivity|].
  rewrite Z.abs_eq by exact Hl.
  generalize (skipn (Z.to_nat skip_)
                (sort_desc (filter (matches (q_user_id user_id)) coll))).
  generalize (Z.to_nat limit_). clear.
  induction n as [|n IH]; intros [|x l]; cbn; try reflexivity.
  now rewrite IH.
Qed.

(** ** Sorting by timestamp, newest first *)

Lemma insert_desc_perm (d : Doc) (l : list Doc) :
  Permutation (insert_desc d l) (d :: l).
Proof.
  induction l as [|x l IH]; cbn.
  - apply Permutation_refl.
  - destruct (doc_timestamp x <=? doc_timestamp d).
    + apply Permutation_refl.
    + eapply perm_trans; [apply perm_skip, IH | apply perm_swap].
Qed.

Lemma sort_desc_perm (l : list Doc) : Permutation (sort_desc l) l.
Proof.
  induction l as [|d l IH]; cbn.
  - constructor.
  - eapply perm_trans; [apply insert_desc_perm | now apply perm_skip].
Qed.

Lemma insert_desc_sorted (d : Doc) (l : list Doc) :
  StronglySorted not_older l -> StronglySorted not_older (insert_desc d l).
Proof.
  induction 1 as [|x l Hs IH Hx]; cbn.
  - repeat constructor.
  - destruct (Z.leb_spec (doc_timestamp x) (doc_timestamp d)) as [Hle|Hlt].
    + constructor; [now constructor|].
      constructor; [exact Hle|].
      rewrite Forall_forall in *. intros y Hy.
      specialize (Hx y Hy). unfold not_older in *. lia.
    + constructor; [exact IH|].
      rewrite Forall_forall in *. intros y Hy.
      apply (Permutation_in _ (insert_desc_perm d l)) in Hy.
      destruct Hy as [<-|Hy]; [unfold not_older; lia | now apply Hx].
Qed.

Lemma sort_desc_sorted (l : list Doc) : StronglySorted not_older (sort_desc l).
Proof.
  induction l as [|d l IH]; cbn.
  - constructor.
  - now apply insert_desc_sorted.
Qed.

(** A list sorted newest first that rearranges a strictly decreasing list
    is that list. *)
Lemma sorted_perm_unique (l0 : list Doc) :
  StronglySorted newer l0 ->
  forall l, StronglySorted not_older l -> Permutation l l0 -> l = l0.
Proof.
  induction 1 as [|x l0 Hs IH Hx]; intros l Hl Hp.
  - now apply Permutation_sym, Permutation_nil in Hp.
  - destruct l as [|y l].
    + apply Permutation_nil in Hp. discriminate.
    + inversion Hl as [|? ? Hl' Hy]; subst.
      rewrite Forall_forall in Hx, Hy.
      assert (Hyin : In y (x :: l0)) by (apply (Permutation_in _ Hp); now left).
      destruct Hyin as [->|Hyin].
      * f_equal. apply IH; [exact Hl'|]. now apply Permutation_cons_inv in Hp.
      * exfalso.
        assert (Hxin : In x (y :: l))
          by (apply (Permutation_in _ (Permutation_sym Hp)); now left).
        specialize (Hx y Hyin). unfold newer in Hx.
        destruct Hxin as [->|Hxin]; [lia|].
        specialize (Hy x Hxin). unfold not_older in Hy. lia.
Qed.

Lemma sort_desc_unique (l l0 : list Doc) :
  StronglySorted newer l0 -> Permutation l l0 -> sort_desc l = l0.
Proof.
  intros Hs Hp. apply sorted_perm_unique.
  - exact Hs.
  - apply sort_desc_sorted.
  - eapply perm_trans; [apply sort_desc_perm | exact Hp].
Qed.

(** ** Claims about [get_chat_history] *)

Lemma str_eqb_eq (a b : str) : str_eqb a b = true <-> a = b.
Proof.
  unfold str_eqb. destruct (str_eq_dec a b); split; congruence.
Qed.

(** [docs_of] keeps exactly the documents whose user identifier is the
    given one. *)
Lemma docs_of_spec (user_id : str) (coll : list Doc) (d : Doc) :
  In d (docs_of user_id coll) <-> In d coll /\ doc_user_id d = user_id.
Proof.
  unfold docs_of. rewrite filter_In. cbn. now rewrite str_eqb_eq.
Qed.

Lemma docs_of_none (user_id : str) (coll : list Doc) :
  (forall d, In d coll -> doc_user_id d <> user_id) ->
  docs_of user_id coll = [].
Proof.
  intro H. destruct (docs_of user_id coll) as [|d l] eqn:E; [reflexivity|].
  assert (Hd : In d (docs_of user_id coll)) by (rewrite E; now left).
  apply docs_of_spec in Hd. destruct Hd as [Hin Hu]. now elim (H d Hin).
Qed.

Lemma In_firstn_skipn {A} (n m : nat) (l : list A) (x : A) :
  In x (firstn n (skipn m l)) -> In x l.
Proof.
  intro H. rewrite <- (firstn_skipn m l). apply in_or_app. right.
  rewrite <- (firstn_skipn n (skipn m l)). apply in_or_app. now left.
Qed.

(** A history that is returned was asked with arguments that fit, by a
    store that answered twice, and every document of the page was
    accepted as a message. *)
Lemma get_chat_history_return_inv (env : Env) (user_id : str) (limit_ skip_ : Z)
  (w : World) (resp : ChatHistoryResponse) :
  fst (get_chat_history env user_id limit_ skip_ w) = Return resp ->
  0 <= limit_ < int64_bound /\ 0 <= skip_ < int64_bound /\
  store_fault env (store_calls w) = false /\
  store_fault env (S (store_calls w)) = false /\
  to_ChatMessages
    (firstn (Z.to_nat limit_)
       (skipn (Z.to_nat skip_)
          (sort_desc (docs_of user_id (health_queries w))))) =
    Return (messages resp) /\
  total resp = Z.of_nat (length (docs_of user_id (health_queries w))).
Proof.
  rewrite get_chat_history_run.
  destruct (store_fault env (store_calls w)); [discriminate|].
  destruct (Z.ltb_spec skip_ 0); [discriminate|].
  destruct (Z.ltb_spec limit_ 0); [discriminate|].
  destruct (Z.leb_spec int64_bound skip_); [discriminate|].
  destruct (Z.leb_spec int64_bound limit_); [discriminate|].
  cbn [orb].
  destruct (store_fault env (S (store_calls w))); [discriminate|].
  rewrite page_window by assumption.
  destruct (to_ChatMessages _) as [ms|]; [|discriminate].
  cbn. intro Hr. injection Hr as <-. cbn. repeat split; assumption.
Qed.

Lemma get_chat_history_returns (env : Env) (user_id : str) (limit_ skip_ : Z)
  (w : World) (ms : list ChatMessage) :
  0 <= limit_ < int64_bound -> 0 <= skip_ < int64_bound ->
  store_fault env (store_calls w) = false ->
  store_fault env (S (store_calls w)) = false ->
  to_ChatMessages
    (firstn (Z.to_nat limit_)
       (skipn (Z.to_nat skip_)
          (sort_desc (docs_of user_id (health_queries w))))) = Return ms ->
  get_chat_history env user_id limit_ skip_ w =
  (Return {| messages := ms;
             total := Z.of_nat (length (docs_of user_id (health_queries w))) |},
   after_reads 2 w).
Proof.
  intros Hl Hs Hf1 Hf2 Hms. rewrite get_chat_history_run, Hf1, Hf2.
  destruct (Z.ltb_spec skip_ 0); [lia|].
  destruct (Z.ltb_spec limit_ 0); [lia|].
  destruct (Z.leb_spec int64_bound skip_); [lia|].
  destruct (Z.leb_spec int64_bound limit_); [lia|].
  cbn [orb]. rewrite page_window by lia. now rewrite Hms.
Qed.

(** C3.  The collection holds exactly three records of user ["u1"], stored
    in any order among any records of other users, with timestamps
    T1 < T2 < T3 and answers that are text.  Then limit 2 with skip 0 gives
    the records stamped T3 and T2, in this order, skip 2 gives the record
    stamped T1, skip 5 gives the empty page, and the total is 3 each
    time. *)
Theorem history_pages_of_three (env : Env) (w : World) (r1 r2 r3 : Doc)
  (a1 a2 a3 : str) (T1 T2 T3 : datetime) :
  Permutation (docs_of (lit "u1") (health_queries w)) [r1; r2; r3] ->
  doc_timestamp r1 = T1 -> doc_timestamp r2 = T2 -> doc_timestamp r3 = T3 ->
  T1 < T2 -> T2 < T3 ->
  doc_answer r1 = PyStr a1 -> doc_answer r2 = PyStr a2 -> doc_answer r3 = PyStr a3 ->
  store_fault env (store_calls w) = false ->
  store_fault env (S (store_calls w)) = false ->
  exists first second,
    fst (get_chat_history env (lit "u1") 2 0 w) =
      Return {| messages := first; total := 3 |} /\
    map cm_timestamp first = [T3; T2] /\
    map cm_id first = [doc_id r3; doc_id r2] /\
    first = [message_of r3 a3; message_of r2 a2] /\
    fst (get_chat_history env (lit "u1") 2 2 w) =
      Return {| messages := second; total := 3 |} /\
    map cm_timestamp second = [T1] /\
    map cm_id second = [doc_id r1] /\
    second = [message_of r1 a1] /\
    fst (get_chat_history env (lit "u1") 2 5 w) =
      Return {| messages := []; total := 3 |}.
Proof.
  intros Hp <- <- <- H12 H23 Ha1 Ha2 Ha3 Hf1 Hf2.
  assert (Hsort : sort_desc (docs_of (lit "u1") (health_queries w)) = [r3; r2; r1]).
  { apply sort_desc_unique.
    - unfold newer. repeat constructor; lia.
    - eapply perm_trans; [exact Hp|].
      change [r3; r2; r1] with (rev [r1; r2; r3]). apply Permutation_rev. }
  assert (Hlen : length (docs_of (lit "u1") (health_queries w)) = 3%nat)
    by (now rewrite (Permutation_length Hp)).
  assert (Hb : 2 ^ 63 = int64_bound) by reflexivity.
  exists [message_of r3 a3; message_of r2 a2], [message_of r1 a1].
  rewrite (get_chat_history_returns env (lit "u1") 2 0 w
             [message_of r3 a3; message_of r2 a2]);
    [| rewrite <- Hb; lia | rewrite <- Hb; lia | assumption | assumption
     | rewrite Hsort; change (Z.to_nat 2) with 2%nat; cbn;
       unfold to_ChatMessage; now rewrite Ha3, Ha2].
  rewrite (get_chat_history_returns env (lit "u1") 2 2 w [message_of r1 a1]);
    [| rewrite <- Hb; lia | rewrite <- Hb; lia | assumption | assumption
     | rewrite Hsort; change (Z.to_nat 2) with 2%nat; cbn;
       unfold to_ChatMessage; now rewrite Ha1].
  rewrite (get_chat_history_returns env (lit "u1") 2 5 w []);
    [| rewrite <- Hb; lia | rewrite <- Hb; lia | assumption | assumption
     | rewrite Hsort; reflexivity].
  rewrite Hlen. cbn. repeat split.
Qed.

Lemma history_pages_of_three_witness :
  exists first second,
    fst (get_chat_history calm_env (lit "u1") 2 0 sample_world) =
      Return {| messages := first; total := 3 |} /\
    map cm_timestamp first = [new_year_2024 + 30000; new_year_2024 + 20000] /\
    map cm_id first = [lit "c"; lit "b"] /\
    first = [sample_message "c" "u1" 30; sample_message "b" "u1" 20] /\
    fst (get_chat_history calm_env (lit "u1") 2 2 sample_world) =
      Return {| messages := second; total := 3 |} /\
    map cm_timestamp second = [new_year_2024 + 10000] /\
    map cm_id second = [lit "a"] /\
    second = [sample_message "a" "u1" 10] /\
    fst (get_chat_history calm_env (lit "u1") 2 5 sample_world) =
      Return {| messages := []; total := 3 |}.
Proof.
  apply (history_pages_of_three calm_env sample_world
           (sample_doc "a" "u1" 10) (sample_doc "b" "u1" 20) (sample_doc "c" "u1" 30)
           (lit "Rest and drink water.") (lit "Rest and drink water.")
           (lit "Rest and drink water.")).
  - change (docs_of (lit "u1") (health_queries sample_world))
      with [sample_doc "b" "u1" 20; sample_doc "c" "u1" 30; sample_doc "a" "u1" 10].
    eapply perm_trans; [apply perm_skip, perm_swap | apply perm_swap].
  - reflexivity.
  - reflexivity.
  - reflexivity.
  - vm_compute. reflexivity.
  - vm_compute. reflexivity.
  - reflexivity.
  - reflexivity.
  - reflexivity.
  - reflexivity.
  - reflexivity.
Defined.

(** C5.  Whatever the limit and the skip, a history that is returned has as
    total the number of stored records of that user; and a history is
    returned whenever limit and skip are not negative and fit 8 bytes, the
    user's stored answers are text and the store answers. *)
Theorem history_total_counts_user (env : Env) (user_id : str)
  (limit_ skip_ : Z) (w : World) :
  (forall resp w',
     get_chat_history env user_id limit_ skip_ w = (Return resp, w') ->
     total resp = Z.of_nat (length (docs_of user_id (health_queries w)))) /\
  (0 <= limit_ < int64_bound -> 0 <= skip_ < int64_bound ->
   Forall has_text_answer (docs_of user_id (health_queries w)) ->
   store_fault env (store_calls w) = false ->
   store_fault env (S (store_calls w)) = false ->
   exists msgs w',
     get_chat_history env user_id limit_ skip_ w =
     (Return {| messages := msgs;
                total := Z.of_nat (length (docs_of user_id (health_queries w))) |},
      w')).
Proof.
  split.
  - intros resp w' H.
    assert (Hr : fst (get_chat_history env user_id limit_ skip_ w) = Return resp)
      by now rewrite H.
    now destruct (get_chat_history_return_inv _ _ _ _ _ _ Hr) as (_ & _ & _ & _ & _ & ?).
  - intros Hl Hs Htext Hf1 Hf2.
    destruct (to_ChatMessages_text
                (firstn (Z.to_nat limit_)
                   (skipn (Z.to_nat skip_)
                      (sort_desc (docs_of user_id (health_queries w))))))
      as (ms & Hms).
    + rewrite Forall_forall in *. intros d Hd. apply Htext.
      apply In_firstn_skipn in Hd.
      exact (Permutation_in _ (sort_desc_perm _) Hd).
    + exists ms, (after_reads 2 w). now apply get_chat_history_returns.
Qed.

Lemma history_total_counts_user_witness :
  total {| messages := [sample_message "b" "u1" 20]; total := 3 |} =
    Z.of_nat (length (docs_of (lit "u1") (health_queries sample_world))) /\
  exists msgs w',
    get_chat_history calm_env (lit "u1") 1 1 sample_world =
    (Return {| messages := msgs;
               total := Z.of_nat (length (docs_of (lit "u1")
                                            (health_queries sample_world))) |},
     w').
Proof.
  destruct (history_total_counts_user calm_env (lit "u1") 1 1 sample_world)
    as [Hpartial Htotal].
  split.
  - apply (Hpartial _ (after_reads 2 sample_world)). vm_compute. reflexivity.
  - apply Htotal.
    + vm_compute. split; [discriminate | reflexivity].
    + vm_compute. split; [discriminate | reflexivity].
    + repeat constructor; eexists; reflexivity.
    + reflexivity.
    + reflexivity.
Defined.

(** C7.  For a user without any stored record the history route, called
    with its defaults (or with any limit and skip that are not negative
    and fit 8 bytes), returns the empty page with total 0 as long as the
    store answers. *)
Theorem history_of_unknown_user_is_empty (env : Env) (user_id : str)
  (limit_ skip_ : option Z) (w : World) :
  (forall d, In d (health_queries w) -> doc_user_id d <> user_id) ->
  absent_or_in_range limit_ -> absent_or_in_range skip_ ->
  store_fault env (store_calls w) = false ->
  store_fault env (S (store_calls w)) = false ->
  get_health_history env user_id limit_ skip_ w =
  (Return {| messages := []; total := 0 |}, after_reads 2 w).
Proof.
  intros Hnone Hl Hs Hf1 Hf2.
  unfold get_health_history.
  set (l := match limit_ with Some n => n | None => 20 end).
  set (s := match skip_ with Some n => n | None => 0 end).
  assert (Hb : 2 ^ 63 = int64_bound) by reflexivity.
  assert (Hl' : 0 <= l < int64_bound)
    by (subst l; destruct limit_; cbn in Hl; [exact Hl | rewrite <- Hb; lia]).
  assert (Hs' : 0 <= s < int64_bound)
    by (subst s; destruct skip_; cbn in Hs; [exact Hs | rewrite <- Hb; lia]).
  rewrite (get_chat_history_returns env user_id l s w []); try assumption.
  - now rewrite (docs_of_none _ _ Hnone).
  - rewrite (docs_of_none _ _ Hnone). cbn [sort_desc].
    now rewrite skipn_nil, firstn_nil.
Qed.

Lemma history_of_unknown_user_is_empty_witness :
  get_health_history calm_env (lit "nonexistent_user") None None sample_world =
  (Return {| messages := []; total := 0 |}, after_reads 2 sample_world).
Proof.
  apply history_of_unknown_user_is_empty.
  - intros d Hd. cbn in Hd.
    destruct Hd as [<-|[<-|[<-|[<-|[]]]]]; vm_compute; discriminate.
  - exact I.
  - exact I.
  - reflexivity.
  - reflexivity.
Defined.

(** ** One run of [get_health_stats] *)

Lemma get_health_stats_run (env : Env) (w : World) :
  get_health_stats env w =
  if store_fault env (store_calls w) then (Raise stats_error, after_reads 1 w)
  else if store_fault env (S (store_calls w))
       then (Raise stats_error, after_reads 2 w)
       else if store_fault env (S (S (store_calls w)))
            then (Raise stats_error, after_clock_read (after_reads 3 w))
            else (Return (stats_of (health_queries w)
                            (wall_clock env (clock_reads w))),
                  after_clock_read (after_reads 3 w)).
Proof.
  unfold get_health_stats, try_except, bind, count_documents, distinct_user_id,
    datetime_now, store_op.
  cbn [fst snd store_calls health_queries clock_reads].
  destruct (store_fault env (store_calls w)); [reflexivity|].
  destruct (store_fault env (S (store_calls w))); [reflexivity|].
  destruct (store_fault env (S (S (store_calls w)))); reflexivity.
Qed.

Lemma filter_all (coll : list Doc) : filter (matches q_all) coll = coll.
Proof.
  induction coll as [|d l IH]; cbn; [reflexivity | now rewrite IH].
Qed.

Lemma stats_recent_le_total (coll : list Doc) (now : datetime) :
  recent_queries_24h (stats_of coll now) <= total_queries (stats_of coll now).
Proof.
  cbn. rewrite filter_all. apply Nat2Z.inj_le, filter_length_le.
Qed.

(** ** Claims about [get_health_stats] and repeated reads *)

(** C6.  Statistics that are returned never report more recent queries
    than queries in total, and they report the number of stored records as
    the total; statistics are returned whenever the store answers. *)
Theorem stats_recent_at_most_total (env : Env) (w : World) :
  (forall stats w',
     get_health_stats env w = (Return stats, w') ->
     recent_queries_24h stats <= total_queries stats /\
     total_queries stats = Z.of_nat (length (health_queries w))) /\
  (store_fault env (store_calls w) = false ->
   store_fault env (S (store_calls w)) = false ->
   store_fault env (S (S (store_calls w))) = false ->
   exists stats w', get_health_stats env w = (Return stats, w')).
Proof.
  rewrite get_health_stats_run. split.
  - intros stats w' H.
    destruct (store_fault env (store_calls w)); [discriminate|].
    destruct (store_fault env (S (store_calls w))); [discriminate|].
    destruct (store_fault env (S (S (store_calls w)))); [discriminate|].
    injection H as <- _. split.
    + apply stats_recent_le_total.
    + cbn. now rewrite filter_all.
  - intros -> -> ->. eexists. eexists. reflexivity.
Qed.

Lemma stats_recent_at_most_total_witness :
  (recent_queries_24h (stats_of (health_queries sample_world) (wall_clock calm_env 0))
   <= total_queries (stats_of (health_queries sample_world) (wall_clock calm_env 0)) /\
   total_queries (stats_of (health_queries sample_world) (wall_clock calm_env 0)) = 4) /\
  exists stats w', get_health_stats calm_env sample_world = (Return stats, w').
Proof.
  destruct (stats_recent_at_most_total calm_env sample_world) as [Hpartial Htotal].
  split.
  - apply (Hpartial _ (after_clock_read (after_reads 3 sample_world))).
    vm_compute. reflexivity.
  - apply Htotal; reflexivity.
Defined.

(** C8, as stated, fails for the statistics: two calls in a row with no
    write in between, one before and one after midnight UTC, report 4 and
    then 0 recent queries. *)
Lemma get_health_stats_changes_over_midnight :
  health_queries (snd (get_health_stats midnight_env sample_world)) =
    health_queries sample_world /\
  fst (get_health_stats midnight_env sample_world) =
    Return {| total_queries := 4; unique_users := 2;
              recent_queries_24h := 4; status := lit "active" |} /\
  fst (get_health_stats midnight_env
         (snd (get_health_stats midnight_env sample_world))) =
    Return {| total_queries := 4; unique_users := 2;
              recent_queries_24h := 0; status := lit "active" |} /\
  fst (get_health_stats midnight_env
         (snd (get_health_stats midnight_env sample_world))) <>
  fst (get_health_stats midnight_env sample_world).
Proof.
  split; [vm_compute; reflexivity|].
  split; [vm_compute; reflexivity|].
  split; [vm_compute; reflexivity|].
  vm_compute. discriminate.
Qed.

(** C8, amended.  While the store answers, a second [get_chat_history] with
    the same arguments returns what the first returned, and neither call
    writes.  A second [get_health_stats] returns what the first returned
    when the clock readings of the two calls fall on the same UTC day. *)
Theorem repeated_reads_agree (env : Env) (w : World) :
  (forall k, store_fault env k = false) ->
  (forall user_id limit_ skip_,
     fst (get_chat_history env user_id limit_ skip_
            (snd (get_chat_history env user_id limit_ skip_ w))) =
     fst (get_chat_history env user_id limit_ skip_ w) /\
     health_queries (snd (get_chat_history env user_id limit_ skip_ w)) =
     health_queries w) /\
  (replace_midnight (wall_clock env (S (clock_reads w))) =
   replace_midnight (wall_clock env (clock_reads w)) ->
   fst (get_health_stats env (snd (get_health_stats env w))) =
   fst (get_health_stats env w) /\
   health_queries (snd (get_health_stats env w)) = health_queries w).
Proof.
  intro Hf. split.
  - intros user_id limit_ skip_.
    rewrite (get_chat_history_run env user_id limit_ skip_ w), !Hf.
    destruct (skip_ <? 0) eqn:Es;
      [|destruct (limit_ <? 0) eqn:El;
        [|destruct ((int64_bound <=? skip_) || (int64_bound <=? limit_)) eqn:Eo;
          [|destruct (to_ChatMessages
                        (page user_id limit_ skip_ (health_queries w))) eqn:Em]]];
      cbn [snd fst]; rewrite get_chat_history_run, !Hf, Es, ?El, ?Eo;
      cbn [health_queries after_reads]; rewrite ?Em;
      split; reflexivity.
  - intro Hday.
    rewrite (get_health_stats_run env w), !Hf. cbn [snd fst].
    rewrite get_health_stats_run, !Hf. cbn [fst health_queries clock_reads
      after_clock_read after_reads].
    split; [|reflexivity].
    unfold stats_of. now rewrite Hday.
Qed.

Lemma repeated_reads_agree_witness :
  (fst (get_chat_history calm_env (lit "u1") 2 0
          (snd (get_chat_history calm_env (lit "u1") 2 0 sample_world))) =
   fst (get_chat_history calm_env (lit "u1") 2 0 sample_world) /\
   health_queries (snd (get_chat_history calm_env (lit "u1") 2 0 sample_world)) =
   health_queries sample_world) /\
  (fst (get_health_stats calm_env (snd (get_health_stats calm_env sample_world))) =
   fst (get_health_stats calm_env sample_world) /\
   health_queries (snd (get_health_stats calm_env sample_world)) =
   health_queries sample_world).
Proof.
  destruct (repeated_reads_agree calm_env sample_world) as [Hh Hs].
  - intro k. reflexivity.
  - split.
    + apply Hh.
    + apply Hs. vm_compute. reflexivity.
Defined.

(** * Further properties of the handlers *)

(** ** What [strip] returns *)

Lemma lstrip_split (s : str) :
  exists pre, s = pre ++ lstrip s /\ forallb isspace pre = true.
Proof.
  induction s as [|c s (pre & Hs & Hp)]; [now exists []|].
  cbn [lstrip]. destruct (isspace c) eqn:Ec.
  - exists (c :: pre). cbn. rewrite Ec, Hp. split; [now f_equal | reflexivity].
  - now exists [].
Qed.

Lemma lstrip_head (s : str) (c : N) (t : str) :
  lstrip s = c :: t -> isspace c = false.
Proof.
  induction s as [|x s IH]; cbn [lstrip]; [discriminate|].
  destruct (isspace x) eqn:Ex; [exact IH|].
  intro H. injection H as -> _. exact Ex.
Qed.

Lemma lstrip_app_nonspace (l : str) (c : N) :
  isspace c = false -> lstrip (l ++ [c]) = lstrip l ++ [c].
Proof.
  intro Hc. induction l as [|x l IH]; cbn.
  - now rewrite Hc.
  - destruct (isspace x); [exact IH | reflexivity].
Qed.

Lemma rstrip_split (s : str) :
  exists post, s = rstrip s ++ post /\ forallb isspace post = true.
Proof.
  unfold rstrip. destruct (lstrip_split (rev s)) as (pre & Hs & Hp).
  exists (rev pre). split.
  - rewrite <- rev_app_distr, <- Hs. now rewrite rev_involutive.
  - rewrite forallb_forall in *. intros x Hx. apply Hp. now apply in_rev.
Qed.

Lemma rstrip_cons_nonspace (c : N) (t : str) :
  isspace c = false -> rstrip (c :: t) = c :: rstrip t.
Proof.
  intro Hc. unfold rstrip. cbn [rev].
  rewrite (lstrip_app_nonspace _ _ Hc), rev_app_distr. reflexivity.
Qed.

Lemma rstrip_last (s : str) (c d : N) (t : str) :
  rstrip s = c :: t -> isspace (last (rstrip s) d) = false.
Proof.
  unfold rstrip. intro H.
  destruct (lstrip (rev s)) as [|x l] eqn:E; [discriminate|].
  cbn [rev]. rewrite last_last. exact (lstrip_head _ _ _ E).
Qed.

(** The result of [strip] has no whitespace at either end, and the
    argument is that result between two runs of whitespace. *)
Lemma strip_trimmed (s : str) : trimmed (strip s).
Proof.
  unfold trimmed. destruct (strip s) as [|c t] eqn:E; [exact I|].
  unfold strip in E. split.
  - destruct (lstrip s) as [|x l] eqn:El; [discriminate|].
    pose proof (lstrip_head _ _ _ El) as Hx.
    rewrite (rstrip_cons_nonspace _ _ Hx) in E. injection E as <- _. exact Hx.
  - rewrite <- E. exact (rstrip_last _ _ _ _ E).
Qed.

Lemma strip_split (s : str) :
  exists pre post,
    s = pre ++ strip s ++ post /\
    forallb isspace pre = true /\ forallb isspace post = true.
Proof.
  destruct (lstrip_split s) as (pre & Hs & Hp).
  destruct (rstrip_split (lstrip s)) as (post & Ht & Hq).
  exists pre, post. unfold strip. now rewrite <- Ht.
Qed.

(** ** Every path through [ask_health_question] *)

(** X1.  A query ends in one of three ways: status 422 with the fixed
    detail, exactly when the question trims to nothing; otherwise status 500
    with the generic detail, or a response.  No other exception leaves the
    handler. *)
Theorem ask_health_question_outcomes (env : Env) (query : HealthQuery) (w : World) :
  (strip (question query) = [] /\
   fst (ask_health_question env query w) = Raise empty_question_error) \/
  (strip (question query) <> [] /\
   (fst (ask_health_question env query w) = Raise query_error \/
    exists resp, fst (ask_health_question env query w) = Return resp)).
Proof.
  destruct (str_eq_dec (strip (question query)) []) as [E|NE].
  - left. split; [exact E|]. now rewrite (ask_health_question_rejects _ _ _ E).
  - right. split; [exact NE|].
    rewrite (ask_health_question_run _ _ _ NE).
    destruct (completion env _ _ _) as [ai|]; [|now left].
    destruct (store_fault env (store_calls w)); [now left|].
    destruct ai; [right; eexists; reflexivity | now left].
Qed.

(** X2.  When the completion fails on a valid question the caller gets the
    generic status-500 error and the handler stops there: the store is not
    contacted, the clock is not read, the collection is unchanged. *)
Theorem completion_failure_skips_store (env : Env) (query : HealthQuery)
  (w : World) :
  strip (question query) <> [] ->
  completion env (length (llm_log w))
    (chat_for env (uuid4 env (uuid_draws w)))
    {| text := strip (question query) |} = None ->
  fst (ask_health_question env query w) = Raise query_error /\
  store_calls (snd (ask_health_question env query w)) = store_calls w /\
  clock_reads (snd (ask_health_question env query w)) = clock_reads w /\
  health_queries (snd (ask_health_question env query w)) = health_queries w /\
  length (llm_log (snd (ask_health_question env query w))) = S (length (llm_log w)).
Proof.
  intros Hq Hc. rewrite (ask_health_question_run _ _ _ Hq), Hc. cbn.
  repeat split. rewrite length_app. cbn. lia.
Qed.

Lemma completion_failure_skips_store_witness :
  fst (ask_health_question failing_llm_env
         {| question := lit "What is flu?"; user_id := None |} sample_world) =
    Raise query_error /\
  store_calls (snd (ask_health_question failing_llm_env
         {| question := lit "What is flu?"; user_id := None |} sample_world)) =
    store_calls sample_world /\
  clock_reads (snd (ask_health_question failing_llm_env
         {| question := lit "What is flu?"; user_id := None |} sample_world)) =
    clock_reads sample_world /\
  health_queries (snd (ask_health_question failing_llm_env
         {| question := lit "What is flu?"; user_id := None |} sample_world)) =
    health_queries sample_world /\
  length (llm_log (snd (ask_health_question failing_llm_env
         {| question := lit "What is flu?"; user_id := None |} sample_world))) =
    S (length (llm_log sample_world)).
Proof.
  apply (completion_failure_skips_store failing_llm_env
           {| question := lit "What is flu?"; user_id := None |} sample_world).
  - vm_compute. discriminate.
  - reflexivity.
Defined.

(** X3.  For a valid question the completion is asked exactly once, under
    the fixed system prompt and model and a session identifier made of
    ["health_chat_"] and a fresh uuid.  The text it is given has no
    whitespace at either end and is the question without a leading and a
    trailing run of whitespace. *)
Theorem completion_gets_trimmed_question (env : Env) (query : HealthQuery)
  (w : World) :
  strip (question query) <> [] ->
  exists chat pre post,
    llm_log (snd (ask_health_question env query w)) =
      llm_log w ++ [(chat, {| text := strip (question query) |})] /\
    session_id chat = lit "health_chat_" ++ uuid4 env (uuid_draws w) /\
    system_message chat = HEALTH_SYSTEM_PROMPT /\
    provider chat = lit "openai" /\ model chat = lit "gpt-4o" /\
    trimmed (strip (question query)) /\
    question query = pre ++ strip (question query) ++ post /\
    forallb isspace pre = true /\ forallb isspace post = true.
Proof.
  intro Hq.
  destruct (strip_split (question query)) as (pre & post & Hs & Hp & Hpo).
  exists (chat_for env (uuid4 env (uuid_draws w))), pre, post.
  split.
  - rewrite (ask_health_question_run _ _ _ Hq).
    destruct (completion env _ _ _) as [ai|]; [|reflexivity].
    destruct (store_fault env (store_calls w)); [reflexivity|].
    destruct ai; reflexivity.
  - repeat split; try assumption; apply strip_trimmed.
Qed.

Lemma completion_gets_trimmed_question_witness :
  exists chat pre post,
    llm_log (snd (ask_health_question calm_env
                    {| question := lit "  What is flu? "; user_id := None |}
                    initial_world)) =
      llm_log initial_world ++
      [(chat, {| text := strip (lit "  What is flu? ") |})] /\
    session_id chat = lit "health_chat_" ++ uuid4 calm_env 0 /\
    system_message chat = HEALTH_SYSTEM_PROMPT /\
    provider chat = lit "openai" /\ model chat = lit "gpt-4o" /\
    trimmed (strip (lit "  What is flu? ")) /\
    lit "  What is flu? " = pre ++ strip (lit "  What is flu? ") ++ post /\
    forallb isspace pre = true /\ forallb isspace post = true.
Proof.
  apply (completion_gets_trimmed_question calm_env
           {| question := lit "  What is flu? "; user_id := None |} initial_world).
  vm_compute. discriminate.
Defined.

(** ** The record a query leaves behind *)

Lemma or_else_nonempty (x : option str) (d : str) :
  d <> [] -> or_else x d <> [].
Proof.
  intro Hd. destruct x as [[|c s]|]; cbn; [exact Hd | discriminate | exact Hd].
Qed.

(** X4.  A successful query appends exactly one record.  Its id is the
    [query_id] of the response and its answer the [answer] of the response;
    its user is the one of the request, or ["anonymous"] when the request
    names none or an empty one, so it is never empty; its category is
    ["general_health"]. *)
Theorem response_identifies_stored_record (env : Env) (query : HealthQuery)
  (w w' : World) (resp : HealthResponse) :
  ask_health_question env query w = (Return resp, w') ->
  exists chat_message,
    health_queries w' = health_queries w ++ [chat_message] /\
    doc_id chat_message = query_id resp /\
    doc_answer chat_message = answer resp /\
    doc_user_id chat_message = effective_user query /\
    doc_user_id chat_message <> [] /\
    (user_id query = None \/ user_id query = Some [] ->
     doc_user_id chat_message = lit "anonymous") /\
    (forall u, u <> [] -> user_id query = Some u -> doc_user_id chat_message = u) /\
    doc_category chat_message = Some (lit "general_health").
Proof.
  intro H.
  destruct (ask_health_question_success_inv _ _ _ _ _ H)
    as (_ & ai & _ & _ & -> & ->).
  exists (bson_doc (chat_message_of env query w ai)). cbn.
  repeat split.
  - apply or_else_nonempty. discriminate.
  - intros [-> | ->]; reflexivity.
  - intros u Hu ->. destruct u; [now elim Hu | reflexivity].
Qed.

Lemma response_identifies_stored_record_witness :
  exists chat_message,
    health_queries (after_success calm_env
                      {| question := lit "What is flu?"; user_id := Some [] |}
                      sample_world (lit "Rest and drink water.")) =
      health_queries sample_world ++ [chat_message] /\
    doc_id chat_message = uuid4 calm_env 1 /\
    doc_user_id chat_message = lit "anonymous".
Proof.
  destruct (response_identifies_stored_record calm_env
              {| question := lit "What is flu?"; user_id := Some [] |}
              sample_world
              (after_success calm_env
                 {| question := lit "What is flu?"; user_id := Some [] |}
                 sample_world (lit "Rest and drink water."))
              {| answer := lit "Rest and drink water.";
                 query_id := uuid4 calm_env 1;
                 timestamp := wall_clock calm_env 1 |})
    as (d & Hq & Hid & _ & _ & _ & Hanon & _).
  - vm_compute. reflexivity.
  - exists d. split; [exact Hq|]. split; [exact Hid|].
    apply Hanon. right. reflexivity.
Defined.

(** X5.  A query never changes or removes a stored record, and it adds at
    most one.  With a response, one record was added.  With an error, none
    was added, except in one case: the completion handed back something
    that is not text and the insert succeeded; the response model then
    refuses the answer after the record was written, and the caller gets
    the generic status-500 error. *)
Theorem record_written_iff_success (env : Env) (query : HealthQuery) (w : World) :
  (exists resp stored,
     fst (ask_health_question env query w) = Return resp /\
     health_queries (snd (ask_health_question env query w)) =
       health_queries w ++ [stored] /\
     doc_answer stored = PyStr (answer resp)) \/
  (exists e,
     fst (ask_health_question env query w) = Raise e /\
     health_queries (snd (ask_health_question env query w)) = health_queries w) \/
  (exists stored,
     fst (ask_health_question env query w) = Raise query_error /\
     health_queries (snd (ask_health_question env query w)) =
       health_queries w ++ [stored] /\
     doc_answer stored = PyNone /\
     completion env (length (llm_log w))
       (chat_for env (uuid4 env (uuid_draws w)))
       {| text := strip (question query) |} = Some PyNone /\
     store_fault env (store_calls w) = false).
Proof.
  destruct (str_eq_dec (strip (question query)) []) as [E|NE].
  - right. left. rewrite (ask_health_question_rejects _ _ _ E). eexists. now split.
  - rewrite (ask_health_question_run _ _ _ NE).
    destruct (completion env _ _ _) as [ai|]; [|right; left; eexists; now split].
    destruct (store_fault env (store_calls w)); [right; left; eexists; now split|].
    destruct ai as [a|].
    + left. eexists. eexists. repeat split.
    + right. right. eexists. repeat split.
Qed.

(** In a run where the completion hands back [None] and the store
    answers, the caller is told of an error and the record is there. *)
Example none_answer_is_stored_behind_an_error :
  fst (ask_health_question none_answer_env
         {| question := lit "What is flu?"; user_id := Some (lit "u1") |}
         initial_world) = Raise query_error /\
  map doc_answer
    (health_queries
       (snd (ask_health_question none_answer_env
               {| question := lit "What is flu?"; user_id := Some (lit "u1") |}
               initial_world))) = [PyNone].
Proof.
  split; vm_compute; reflexivity.
Qed.

(** X6.  If every stored record has a question that does not trim to
    nothing, a non-empty user and the category ["general_health"], the same
    holds after any query, whatever its outcome. *)
Theorem ask_health_question_keeps_records_well_formed (env : Env)
  (query : HealthQuery) (w : World) :
  Forall well_formed_doc (health_queries w) ->
  Forall well_formed_doc (health_queries (snd (ask_health_question env query w))).
Proof.
  intro Hw.
  destruct (str_eq_dec (strip (question query)) []) as [E|NE].
  - now rewrite (ask_health_question_rejects _ _ _ E).
  - rewrite (ask_health_question_run _ _ _ NE).
    destruct (completion env _ _ _) as [ai|]; [|exact Hw].
    destruct (store_fault env (store_calls w)); [exact Hw|].
    assert (Hnew : Forall well_formed_doc
                     (health_queries (after_success env query w ai))).
    2: { destruct ai; exact Hnew. }
    cbn. apply Forall_app. split; [exact Hw|].
    constructor; [|constructor].
    repeat split; cbn; [exact NE | apply or_else_nonempty; discriminate].
Qed.

Lemma ask_health_question_keeps_records_well_formed_witness :
  Forall well_formed_doc
    (health_queries (snd (ask_health_question calm_env
                            {| question := lit " What is flu?"; user_id := None |}
                            sample_world))).
Proof.
  apply ask_health_question_keeps_records_well_formed.
  repeat constructor; vm_compute; discriminate.
Defined.

Lemma map_injective_NoDup {A B} (f : A -> B) (l : list A) :
  (forall a b, f a = f b -> a = b) -> NoDup l -> NoDup (map f l).
Proof.
  intros Hinj. induction 1 as [|x l Hx Hl IH]; cbn; constructor; [|exact IH].
  rewrite in_map_iff. intros (y & Hy & Hin).
  apply Hinj in Hy. now subst.
Qed.

(** X7.  Record identifiers stay unique: if the stored ids are uuids drawn
    earlier, each draw used once, this still holds after any query; and
    then no two records share an id as long as [uuid4] never repeats. *)
Theorem ask_health_question_keeps_ids_unique (env : Env) (query : HealthQuery)
  (w : World) :
  ids_drawn env w ->
  ids_drawn env (snd (ask_health_question env query w)) /\
  ((forall i j, uuid4 env i = uuid4 env j -> i = j) ->
   NoDup (map doc_id (health_queries (snd (ask_health_question env query w))))).
Proof.
  intro Hinv.
  assert (Hkeep : ids_drawn env (snd (ask_health_question env query w))).
  { destruct Hinv as (ks & Hids & Hnd & Hlt).
    destruct (str_eq_dec (strip (question query)) []) as [E|NE].
    - rewrite (ask_health_question_rejects _ _ _ E). now exists ks.
    - rewrite (ask_health_question_run _ _ _ NE).
      assert (Hlt' : forall n, (uuid_draws w <= n)%nat ->
                Forall (fun k => (k < n)%nat) ks).
      { intros n Hn. eapply Forall_impl; [|exact Hlt]. cbn. intros; lia. }
      destruct (completion env _ _ _);
        [|exists ks; cbn; repeat split; auto].
      destruct (store_fault env (store_calls w));
        [exists ks; cbn; repeat split; auto|].
      assert (Hnew : ids_drawn env (after_success env query w p));
        [|destruct p; exact Hnew].
      exists (ks ++ [S (uuid_draws w)]). cbn. repeat split.
      + rewrite !map_app, Hids. reflexivity.
      + apply NoDup_app; [exact Hnd | repeat constructor; intros [] |].
        intros k Hk [<-|[]]. rewrite Forall_forall in Hlt.
        specialize (Hlt _ Hk). cbn in Hlt. lia.
      + apply Forall_app. split; [apply Hlt'; lia | repeat constructor]. }
  split; [exact Hkeep|].
  intro Hinj. destruct Hkeep as (ks & -> & Hnd & _).
  now apply map_injective_NoDup.
Qed.

Lemma ask_health_question_keeps_ids_unique_witness :
  length (health_queries two_queries_world) = 2%nat /\
  ids_drawn calm_env
    (snd (ask_health_question calm_env
            {| question := lit "What is flu?"; user_id := None |}
            two_queries_world)) /\
  NoDup (map doc_id
           (health_queries
              (snd (ask_health_question calm_env
                      {| question := lit "What is flu?"; user_id := None |}
                      two_queries_world)))) /\
  map doc_id
    (health_queries
       (snd (ask_health_question calm_env
               {| question := lit "What is flu?"; user_id := None |}
               two_queries_world))) =
  [uuid4 calm_env 1; uuid4 calm_env 3; uuid4 calm_env 5].
Proof.
  destruct (ask_health_question_keeps_ids_unique calm_env
              {| question := lit "What is flu?"; user_id := None |}
              two_queries_world)
    as [Hkeep Hnodup].
  - exists [1%nat; 3%nat]. split; [vm_compute; reflexivity|]. split.
    + repeat constructor; cbn; intuition lia.
    + repeat constructor; vm_compute; lia.
  - split; [reflexivity|]. split; [exact Hkeep|]. split; [|vm_compute; reflexivity].
    apply Hnodup.
    intros i j H.
    assert (H' : lit "uuid-" ++ [(48 + N.of_nat i)%N] =
                 lit "uuid-" ++ [(48 + N.of_nat j)%N]) by exact H.
    apply app_inv_head in H'.
    assert (H'' : (48 + N.of_nat i = 48 + N.of_nat j)%N) by congruence.
    apply N.add_cancel_l in H''. now apply Nat2N.inj.
Defined.

(** ** Pages of the history *)

Lemma StronglySorted_firstn {A} (R : A -> A -> Prop) (n : nat) (l : list A) :
  StronglySorted R l -> StronglySorted R (firstn n l).
Proof.
  revert l. induction n as [|n IH]; intros l Hl; [constructor|].
  destruct Hl as [|x l Hl Hx]; cbn; constructor; [now apply IH|].
  rewrite Forall_forall in *. intros y Hy. apply Hx.
  eapply In_nth_error in Hy. destruct Hy as [k Hk].
  apply nth_error_In with k. rewrite nth_error_firstn in Hk.
  now destruct (k <? n)%nat.
Qed.

Lemma StronglySorted_skipn {A} (R : A -> A -> Prop) (n : nat) (l : list A) :
  StronglySorted R l -> StronglySorted R (skipn n l).
Proof.
  revert l. induction n as [|n IH]; intros l Hl; [exact Hl|].
  destruct Hl as [|x l Hl Hx]; cbn; [constructor | now apply IH].
Qed.


Lemma page_messages (l : list Doc) (ms : list ChatMessage) :
  to_ChatMessages l = Return ms ->
  length ms = length l /\
  (forall m, In m ms -> exists d, In d l /\ to_ChatMessage d = Return m) /\
  (forall d, In d l -> exists m, In m ms /\ to_ChatMessage d = Return m) /\
  (StronglySorted not_older l ->
   StronglySorted (fun a b => cm_timestamp b <= cm_timestamp a) ms).
Proof.
  intro H. apply to_ChatMessages_inv in H.
  induction H as [|d m l ms Hd _ (IHlen & IHm & IHd & IHs)].
  - repeat split; try (intros ? []); constructor.
  - split; [cbn; now rewrite IHlen|]. split; [|split].
    + intros x [<-|Hx]; [exists d; split; [now left | exact Hd]|].
      destruct (IHm x Hx) as (y & Hy & Hxy). exists y. split; [now right | exact Hxy].
    + intros y [<-|Hy]; [exists m; split; [now left | exact Hd]|].
      destruct (IHd y Hy) as (x & Hx & Hxy). exists x. split; [now right | exact Hxy].
    + intro Hs. inversion Hs as [|? ? Hs' Hall]; subst.
      constructor; [now apply IHs|].
      rewrite Forall_forall in *. intros x Hx.
      destruct (IHm x Hx) as (y & Hy & Hxy).
      apply to_ChatMessage_inv in Hd, Hxy.
      destruct Hd as (? & _ & ->), Hxy as (? & _ & ->). cbn.
      exact (Hall y Hy).
Qed.

(** X8.  A history that is returned holds [min(limit, max(0, total - skip))]
    messages; each is a stored record of the user asked for, and they come
    newest first. *)
Theorem history_page_shape (env : Env) (user_id : str) (limit_ skip_ : Z)
  (w : World) (resp : ChatHistoryResponse) :
  fst (get_chat_history env user_id limit_ skip_ w) = Return resp ->
  Z.of_nat (length (messages resp)) = Z.min limit_ (Z.max 0 (total resp - skip_)) /\
  Forall (fun m => cm_user_id m = user_id /\
                   exists d, In d (health_queries w) /\ to_ChatMessage d = Return m)
    (messages resp) /\
  StronglySorted (fun a b => cm_timestamp b <= cm_timestamp a) (messages resp).
Proof.
  intro H.
  destruct (get_chat_history_return_inv _ _ _ _ _ _ H)
    as (Hl & Hs & _ & _ & Hms & ->).
  destruct (page_messages _ _ Hms) as (Hlen & Hm & _ & Hsorted).
  split; [|split].
  - rewrite Hlen, length_firstn, length_skipn,
      (Permutation_length (sort_desc_perm _)). lia.
  - rewrite Forall_forall. intros m Hin.
    destruct (Hm m Hin) as (d & Hd & Hdm).
    apply In_firstn_skipn in Hd.
    apply (Permutation_in _ (sort_desc_perm _)), docs_of_spec in Hd.
    destruct Hd as [Hstored Hu]. split; [|now exists d].
    apply to_ChatMessage_inv in Hdm. destruct Hdm as (? & _ & ->). exact Hu.
  - apply Hsorted.
    apply StronglySorted_firstn, StronglySorted_skipn, sort_desc_sorted.
Qed.

Lemma history_page_shape_witness :
  Z.of_nat (length [sample_message "a" "u1" 10]) =
    Z.min 5 (Z.max 0 (3 - 2)) /\
  Forall (fun m => cm_user_id m = lit "u1" /\
                   exists d, In d (health_queries sample_world) /\
                             to_ChatMessage d = Return m)
    [sample_message "a" "u1" 10] /\
  StronglySorted (fun a b => cm_timestamp b <= cm_timestamp a)
    [sample_message "a" "u1" 10].
Proof.
  apply (history_page_shape calm_env (lit "u1") 5 2 sample_world
           {| messages := [sample_message "a" "u1" 10]; total := 3 |}).
  vm_compute. reflexivity.
Defined.



(** X10.  A negative limit or a negative skip is answered with the
    status-500 history error after the count was asked for; no page is
    read. *)
Theorem history_negative_window_is_error (env : Env) (user_id : str)
  (limit_ skip_ : Z) (w : World) :
  limit_ < 0 \/ skip_ < 0 ->
  get_chat_history env user_id limit_ skip_ w =
  (Raise history_error, after_reads 1 w).
Proof.
  intro Hneg. rewrite get_chat_history_run.
  destruct (store_fault env (store_calls w)); [reflexivity|].
  destruct (Z.ltb_spec skip_ 0); [reflexivity|].
  destruct (Z.ltb_spec limit_ 0); [reflexivity|lia].
Qed.

Lemma history_negative_window_is_error_witness :
  get_chat_history calm_env (lit "u1") (-1) 0 sample_world =
    (Raise history_error, after_reads 1 sample_world) /\
  get_chat_history calm_env (lit "u1") 20 (-3) sample_world =
    (Raise history_error, after_reads 1 sample_world).
Proof.
  split; apply history_negative_window_is_error; [left | right]; lia.
Defined.

(** X11.  Reading the history ends with a response or with the status-500
    history error, and it only reads: afterwards the collection, the
    completion log, the uuid draws and the clock are as before, and one or
    two store operations were counted. *)
Theorem get_chat_history_only_reads (env : Env) (user_id : str)
  (limit_ skip_ : Z) (w : World) :
  ((exists resp, fst (get_chat_history env user_id limit_ skip_ w) = Return resp) \/
   fst (get_chat_history env user_id limit_ skip_ w) = Raise history_error) /\
  (snd (get_chat_history env user_id limit_ skip_ w) = after_reads 1 w \/
   snd (get_chat_history env user_id limit_ skip_ w) = after_reads 2 w).
Proof.
  rewrite get_chat_history_run.
  destruct (store_fault env (store_calls w)); [split; [right|left]; reflexivity|].
  destruct (skip_ <? 0); [split; [right|left]; reflexivity|].
  destruct (limit_ <? 0); [split; [right|left]; reflexivity|].
  destruct ((int64_bound <=? skip_) || (int64_bound <=? limit_));
    [split; [right|left]; reflexivity|].
  destruct (store_fault env (S (store_calls w)));
    [split; [now right | right; reflexivity]|].
  destruct (to_ChatMessages _);
    (split; [|right; reflexivity]); [left; eexists; reflexivity | now right].
Qed.

(** ** A query followed by a read *)

Lemma docs_of_app (user_id : str) (coll : list Doc) (d : Doc) :
  docs_of user_id (coll ++ [d]) =
  docs_of user_id coll ++ (if str_eq_dec (doc_user_id d) user_id then [d] else []).
Proof.
  unfold docs_of. rewrite filter_app. cbn. unfold str_eqb.
  now destruct (str_eq_dec (doc_user_id d) user_id).
Qed.

(** X12.  After a successful query, with a store that answers, the history
    of the query's user (["anonymous"] when it names none) counts one record
    more than before and, read from the start with a limit that covers
    them all and fits 8 bytes, lists the new record under the response's
    [query_id], provided the user's earlier answers are text; the history
    of every other user is what it was. *)
Theorem query_shows_in_own_history_only (env : Env) (query : HealthQuery)
  (w w' : World) (resp : HealthResponse) :
  ask_health_question env query w = (Return resp, w') ->
  (forall k, store_fault env k = false) ->
  (forall limit_,
     Z.of_nat (length (docs_of (effective_user query) (health_queries w))) < limit_ ->
     limit_ < int64_bound ->
     Forall has_text_answer (docs_of (effective_user query) (health_queries w)) ->
     exists page_,
       fst (get_chat_history env (effective_user query) limit_ 0 w') =
       Return {| messages := page_;
                 total := 1 + Z.of_nat (length (docs_of (effective_user query)
                                                  (health_queries w))) |} /\
       exists m, In m page_ /\ cm_id m = query_id resp /\
                 cm_answer m = answer resp) /\
  (forall other limit_ skip_,
     other <> effective_user query ->
     fst (get_chat_history env other limit_ skip_ w') =
     fst (get_chat_history env other limit_ skip_ w)).
Proof.
  intros H Hf.
  destruct (ask_health_question_success_inv _ _ _ _ _ H)
    as (_ & ai & _ & _ & -> & ->).
  set (d := bson_doc (chat_message_of env query w ai)).
  assert (Hown : docs_of (effective_user query) (health_queries w ++ [d]) =
                 docs_of (effective_user query) (health_queries w) ++ [d]).
  { rewrite docs_of_app.
    destruct (str_eq_dec (doc_user_id d) (effective_user query)) as [_|N];
      [reflexivity | now elim N]. }
  assert (Hb : 2 ^ 63 = int64_bound) by reflexivity.
  split.
  - intros limit_ Hlim Hfit Htext.
    set (window := firstn (Z.to_nat limit_)
                     (skipn (Z.to_nat 0)
                        (sort_desc (docs_of (effective_user query)
                                      (health_queries w ++ [d]))))).
    assert (Hall : window = sort_desc (docs_of (effective_user query)
                                         (health_queries w ++ [d]))).
    { unfold window. cbn [Z.to_nat skipn]. apply firstn_all2.
      rewrite (Permutation_length (sort_desc_perm _)), Hown, length_app.
      cbn [length]. lia. }
    destruct (to_ChatMessages_text window) as (ms & Hms).
    { rewrite Hall, Forall_forall. intros x Hx.
      apply (Permutation_in _ (sort_desc_perm _)) in Hx.
      rewrite Hown in Hx. apply in_app_or in Hx.
      destruct Hx as [Hx|[<-|[]]].
      - rewrite Forall_forall in Htext. now apply Htext.
      - now exists ai. }
    exists ms. split.
    + rewrite (get_chat_history_returns env (effective_user query) limit_ 0
                 (after_success env query w ai) ms);
        [| lia | rewrite <- Hb; lia | apply Hf | apply Hf | exact Hms].
      cbn [fst health_queries after_success]. fold d. rewrite Hown, length_app.
      cbn [length]. f_equal. f_equal. lia.
    + destruct (page_messages _ _ Hms) as (_ & _ & Hd & _).
      destruct (Hd d) as (m & Hm & Hdm).
      { rewrite Hall.
        apply (Permutation_in _ (Permutation_sym (sort_desc_perm _))).
        rewrite Hown. apply in_or_app. right. now left. }
      exists m. split; [exact Hm|].
      apply to_ChatMessage_inv in Hdm. destruct Hdm as (a & Ha & ->).
      cbn in Ha. injection Ha as <-. split; reflexivity.
  - intros other limit_ skip_ Hother.
    rewrite !get_chat_history_run, !Hf.
    cbn [health_queries after_success]. fold d.
    unfold page, run_cursor. cbn [c_query c_sort_desc c_skip c_limit].
    fold (docs_of other (health_queries w ++ [d])).
    fold (docs_of other (health_queries w)).
    rewrite docs_of_app.
    destruct (str_eq_dec (doc_user_id d) other) as [E|_];
      [now elim Hother | rewrite app_nil_r].
    destruct (skip_ <? 0); [reflexivity|].
    destruct (limit_ <? 0); [reflexivity|].
    destruct ((int64_bound <=? skip_) || (int64_bound <=? limit_)); [reflexivity|].
    destruct (to_ChatMessages _); reflexivity.
Qed.

Lemma query_shows_in_own_history_only_witness :
  (exists page_,
     fst (get_chat_history calm_env (lit "u1") 10 0
            (after_success calm_env
               {| question := lit "What is flu?"; user_id := Some (lit "u1") |}
               sample_world (lit "Rest and drink water."))) =
     Return {| messages := page_; total := 1 + 3 |} /\
     exists m, In m page_ /\ cm_id m = uuid4 calm_env 1 /\
               cm_answer m = lit "Rest and drink water.") /\
  fst (get_chat_history calm_env (lit "u2") 20 0
         (after_success calm_env
            {| question := lit "What is flu?"; user_id := Some (lit "u1") |}
            sample_world (lit "Rest and drink water."))) =
  fst (get_chat_history calm_env (lit "u2") 20 0 sample_world).
Proof.
  destruct (query_shows_in_own_history_only calm_env
              {| question := lit "What is flu?"; user_id := Some (lit "u1") |}
              sample_world
              (after_success calm_env
                 {| question := lit "What is flu?"; user_id := Some (lit "u1") |}
                 sample_world (lit "Rest and drink water."))
              {| answer := lit "Rest and drink water.";
                 query_id := uuid4 calm_env 1;
                 timestamp := wall_clock calm_env 1 |})
    as [Hown Hother].
  - vm_compute. reflexivity.
  - intro k. reflexivity.
  - split.
    + apply (Hown 10).
      * vm_compute. reflexivity.
      * vm_compute. reflexivity.
      * repeat constructor; eexists; reflexivity.
    + apply Hother. vm_compute. discriminate.
Defined.

(** ** The statistics *)

Lemma filter_length_mono {A} (p q : A -> bool) (l : list A) :
  (forall x, p x = true -> q x = true) ->
  (length (filter p l) <= length (filter q l))%nat.
Proof.
  intro Hpq. induction l as [|x l IH]; cbn; [lia|].
  destruct (p x) eqn:Ep.
  - rewrite (Hpq _ Ep). cbn. lia.
  - destruct (q x); cbn; lia.
Qed.

Lemma same_elements_length {A} (a b : list A) :
  NoDup a -> NoDup b -> (forall x, In x a <-> In x b) -> length a = length b.
Proof.
  intros Ha Hb Hab. apply Nat.le_antisymm.
  - apply NoDup_incl_length; [exact Ha | intros x Hx; now apply Hab].
  - apply NoDup_incl_length; [exact Hb | intros x Hx; now apply Hab].
Qed.

Lemma nodup_length_snoc (l : list str) (x : str) :
  length (nodup str_eq_dec (l ++ [x])) =
  if in_dec str_eq_dec x l then length (nodup str_eq_dec l)
  else S (length (nodup str_eq_dec l)).
Proof.
  destruct (in_dec str_eq_dec x l) as [Hin|Hnin].
  - apply same_elements_length; try apply NoDup_nodup.
    intro y. rewrite !nodup_In, in_app_iff. cbn. intuition congruence.
  - change (S (length (nodup str_eq_dec l)))
      with (length (x :: nodup str_eq_dec l)).
    apply same_elements_length.
    + apply NoDup_nodup.
    + constructor; [now rewrite nodup_In | apply NoDup_nodup].
    + intro y. cbn. rewrite !nodup_In, in_app_iff. cbn. intuition.
Qed.

(** A statistics call that returns was answered three times by the store. *)
Lemma get_health_stats_return_inv (env : Env) (w : World) (stats : Stats) :
  fst (get_health_stats env w) = Return stats ->
  stats = stats_of (health_queries w) (wall_clock env (clock_reads w)).
Proof.
  rewrite get_health_stats_run.
  destruct (store_fault env (store_calls w)); [discriminate|].
  destruct (store_fault env (S (store_calls w))); [discriminate|].
  destruct (store_fault env (S (S (store_calls w)))); [discriminate|].
  cbn. congruence.
Qed.

(** X13.  Computing the statistics ends with the statistics, whose status
    is ["active"], or with the status-500 statistics error, and it only
    reads: the collection, the completion log and the uuid draws are as
    before. *)
Theorem get_health_stats_only_reads (env : Env) (w : World) :
  ((exists stats, fst (get_health_stats env w) = Return stats /\
                  status stats = lit "active") \/
   fst (get_health_stats env w) = Raise stats_error) /\
  health_queries (snd (get_health_stats env w)) = health_queries w /\
  llm_log (snd (get_health_stats env w)) = llm_log w /\
  uuid_draws (snd (get_health_stats env w)) = uuid_draws w.
Proof.
  rewrite get_health_stats_run.
  destruct (store_fault env (store_calls w)); [now repeat split; right|].
  destruct (store_fault env (S (store_calls w))); [now repeat split; right|].
  destruct (store_fault env (S (S (store_calls w)))); [now repeat split; right|].
  repeat split. left. eexists. split; reflexivity.
Qed.

(** X14.  In statistics that are returned, [unique_users] is the number of
    different user identifiers among the stored records: it is at most
    [total_queries], and it is 0 exactly when there is no record. *)
Theorem stats_unique_users_counts_distinct (env : Env) (w : World) (stats : Stats) :
  fst (get_health_stats env w) = Return stats ->
  (exists users,
     NoDup users /\
     (forall u, In u users <-> exists d, In d (health_queries w) /\ doc_user_id d = u) /\
     unique_users stats = Z.of_nat (length users)) /\
  0 <= unique_users stats <= total_queries stats /\
  (unique_users stats = 0 <-> total_queries stats = 0).
Proof.
  intro H. apply get_health_stats_return_inv in H. subst stats.
  cbn [unique_users total_queries stats_of]. rewrite filter_all.
  set (users := nodup str_eq_dec (map doc_user_id (health_queries w))).
  assert (Hle : (length users <= length (health_queries w))%nat).
  { rewrite <- (length_map doc_user_id).
    apply NoDup_incl_length; [apply NoDup_nodup|].
    intros u Hu. now apply nodup_In in Hu. }
  split; [|split; [lia|]].
  - exists users. split; [apply NoDup_nodup|]. split; [|reflexivity].
    intro u. unfold users. rewrite nodup_In, in_map_iff.
    split; intros (d & Hd1 & Hd2); exists d; tauto.
  - split; intro Hz.
    + destruct (health_queries w) as [|d l] eqn:E; [reflexivity|].
      exfalso. assert (Hd : In (doc_user_id d) users).
      { unfold users. rewrite nodup_In. now left. }
      destruct users; [exact Hd | cbn in Hz; lia].
    + lia.
Qed.

Lemma stats_unique_users_counts_distinct_witness :
  0 <= unique_users (stats_of (health_queries sample_world) (wall_clock calm_env 0))
    <= total_queries (stats_of (health_queries sample_world) (wall_clock calm_env 0)).
Proof.
  apply (stats_unique_users_counts_distinct calm_env sample_world).
  vm_compute. reflexivity.
Defined.

Lemma replace_midnight_spec (now : datetime) :
  replace_midnight now mod microseconds_per_day = 0 /\
  replace_midnight now <= now < replace_midnight now + microseconds_per_day.
Proof.
  unfold replace_midnight.
  assert (Hd : 0 < microseconds_per_day) by reflexivity.
  pose proof (Z.mod_pos_bound now _ Hd) as Hb.
  split; [|lia].
  rewrite Zminus_mod_idemp_r, Z.sub_diag. reflexivity.
Qed.

(** X15.  [recent_queries_24h] counts the records stamped at or after the
    last UTC midnight before the call, not those of the last 24 hours: it
    never exceeds the number of records younger than 24 hours. *)
Theorem stats_recent_counts_since_utc_midnight (env : Env) (w : World)
  (stats : Stats) :
  fst (get_health_stats env w) = Return stats ->
  exists midnight,
    midnight mod microseconds_per_day = 0 /\
    midnight <= wall_clock env (clock_reads w) < midnight + microseconds_per_day /\
    recent_queries_24h stats =
      Z.of_nat (length (filter (fun d => midnight <=? doc_timestamp d)
                          (health_queries w))) /\
    recent_queries_24h stats <=
      within_24h (wall_clock env (clock_reads w)) (health_queries w).
Proof.
  intro H. apply get_health_stats_return_inv in H. subst stats.
  set (now := wall_clock env (clock_reads w)).
  destruct (replace_midnight_spec now) as [Hm Hb].
  exists (replace_midnight now). repeat split; try assumption; try lia.
  unfold within_24h. cbn [recent_queries_24h stats_of].
  apply Nat2Z.inj_le, filter_length_mono.
  intros d Hd. cbn in Hd. apply Z.leb_le in Hd. apply Z.ltb_lt. lia.
Qed.

Lemma stats_recent_counts_since_utc_midnight_witness :
  exists midnight,
    midnight mod microseconds_per_day = 0 /\
    midnight <= wall_clock midnight_env 1 < midnight + microseconds_per_day /\
    recent_queries_24h (stats_of (health_queries sample_world)
                          (wall_clock midnight_env 1)) =
      Z.of_nat (length (filter (fun d => midnight <=? doc_timestamp d)
                          (health_queries sample_world))) /\
    recent_queries_24h (stats_of (health_queries sample_world)
                          (wall_clock midnight_env 1)) <=
      within_24h (wall_clock midnight_env 1) (health_queries sample_world).
Proof.
  apply (stats_recent_counts_since_utc_midnight midnight_env
           (after_clock_read (after_reads 3 sample_world))).
  vm_compute. reflexivity.
Defined.

(** X16.  After a successful query, with a store that answers, the
    statistics count one query more; [unique_users] is unchanged when the
    query's user already had a record and one more when it had none. *)
Theorem query_counts_in_stats (env : Env) (query : HealthQuery)
  (w w' : World) (resp : HealthResponse) :
  ask_health_question env query w = (Return resp, w') ->
  (forall k, store_fault env k = false) ->
  exists before after,
    fst (get_health_stats env w) = Return before /\
    fst (get_health_stats env w') = Return after /\
    total_queries after = total_queries before + 1 /\
    ((exists d, In d (health_queries w) /\ doc_user_id d = effective_user query) ->
     unique_users after = unique_users before) /\
    ((forall d, In d (health_queries w) -> doc_user_id d <> effective_user query) ->
     unique_users after = unique_users before + 1).
Proof.
  intros H Hf.
  destruct (ask_health_question_success_inv _ _ _ _ _ H)
    as (_ & ai & _ & _ & -> & ->).
  rewrite !get_health_stats_run, !Hf. cbn [fst].
  eexists. eexists. split; [reflexivity|]. split; [reflexivity|].
  cbn [health_queries after_success total_queries unique_users stats_of].
  rewrite !filter_all, length_app, map_app.
  cbn [length map doc_user_id chat_message_of bson_doc].
  fold (effective_user query).
  rewrite nodup_length_snoc.
  split; [lia|].
  destruct (in_dec str_eq_dec (effective_user query)
              (map doc_user_id (health_queries w))) as [Hin|Hnin].
  - split; [reflexivity|]. intro Hnone. exfalso.
    apply in_map_iff in Hin. destruct Hin as (d & Hu & Hd). exact (Hnone d Hd Hu).
  - split; [|intros _; lia]. intros (d & Hd & Hu). exfalso.
    apply Hnin. rewrite <- Hu. now apply in_map.
Qed.

Lemma query_counts_in_stats_witness :
  exists before after,
    fst (get_health_stats calm_env sample_world) = Return before /\
    fst (get_health_stats calm_env
           (after_success calm_env
              {| question := lit "What is flu?"; user_id := None |}
              sample_world (lit "Rest and drink water."))) = Return after /\
    total_queries after = total_queries before + 1 /\
    unique_users after = unique_users before + 1.
Proof.
  destruct (query_counts_in_stats calm_env
              {| question := lit "What is flu?"; user_id := None |}
              sample_world
              (after_success calm_env
                 {| question := lit "What is flu?"; user_id := None |}
                 sample_world (lit "Rest and drink water."))
              {| answer := lit "Rest and drink water.";
                 query_id := uuid4 calm_env 1;
                 timestamp := wall_clock calm_env 1 |})
    as (before & after & Hb & Ha & Ht & _ & Hnew).
  - vm_compute. reflexivity.
  - intro k. reflexivity.
  - exists before, after. repeat split; try assumption.
    apply Hnew. intros d Hd. cbn in Hd.
    destruct Hd as [<-|[<-|[<-|[<-|[]]]]]; vm_compute; discriminate.
Defined.

(** ** The status check endpoints *)

Lemma create_status_check_run (env : Env) (input : StatusCheckCreate)
  (db : Database) :
  create_status_check env input db =
  if store_fault env (store_calls (queries db))
  then (Raise PyMongoError,
        {| queries := after_status_check (queries db);
           status_checks := status_checks db |})
  else (Return (status_check_of env input (queries db)),
        {| queries := after_status_check (queries db);
           status_checks := status_checks db ++
                            [bson_status_check
                               (status_check_of env input (queries db))] |}).
Proof.
  unfold create_status_check, new_StatusCheck, db_bind, lift, db_ret,
    status_insert_one, status_store_op, new_uuid, datetime_now.
  cbn [fst snd queries status_checks store_calls health_queries clock_reads
       uuid_draws llm_log].
  destruct (store_fault env (store_calls (queries db))); reflexivity.
Qed.

Lemma get_status_checks_run (env : Env) (db : Database) :
  get_status_checks env db =
  ((if store_fault env (store_calls (queries db))
    then Raise PyMongoError
    else Return (firstn 1000 (status_checks db))),
   {| queries := after_reads 1 (queries db);
      status_checks := status_checks db |}).
Proof.
  unfold get_status_checks, db_bind, db_ret, status_find_to_list, status_store_op.
  cbn [fst snd].
  destruct (store_fault env (store_calls (queries db)));
    [reflexivity | now rewrite map_id].
Qed.

(** X17.  Creating a status check never validates the name and never
    touches the queries.  When the store answers, the check returned has
    the client name of the request and a fresh uuid as id, and it is
    appended to the stored checks, its timestamp cut to whole
    milliseconds; when the store fails, the driver's
    exception leaves the handler as it is (there is no [try]) and nothing
    is stored. *)
Theorem create_status_check_outcomes (env : Env) (input : StatusCheckCreate)
  (db : Database) :
  ((store_fault env (store_calls (queries db)) = true /\
    fst (create_status_check env input db) = Raise PyMongoError /\
    status_checks (snd (create_status_check env input db)) = status_checks db) \/
   (store_fault env (store_calls (queries db)) = false /\
    exists status_obj,
      fst (create_status_check env input db) = Return status_obj /\
      sc_client_name status_obj = client_name input /\
      sc_id status_obj = uuid4 env (uuid_draws (queries db)) /\
      status_checks (snd (create_status_check env input db)) =
        status_checks db ++ [bson_status_check status_obj])) /\
  health_queries (queries (snd (create_status_check env input db))) =
    health_queries (queries db) /\
  llm_log (queries (snd (create_status_check env input db))) = llm_log (queries db).
Proof.
  rewrite create_status_check_run.
  destruct (store_fault env (store_calls (queries db))); cbn.
  - repeat split. left. repeat split.
  - repeat split. right. split; [reflexivity|].
    eexists. repeat split.
Qed.

(** X18.  A status check that was created is the last one listed
    afterwards, under its id and client name, as long as fewer than 1000
    checks were stored before and the store answers. *)
Theorem created_status_check_is_listed (env : Env) (input : StatusCheckCreate)
  (db db' : Database) (status_obj : StatusCheck) :
  create_status_check env input db = (Return status_obj, db') ->
  store_fault env (store_calls (queries db')) = false ->
  (length (status_checks db) < 1000)%nat ->
  exists earlier listed,
    fst (get_status_checks env db') = Return (earlier ++ [listed]) /\
    earlier = status_checks db /\
    sc_id listed = sc_id status_obj /\
    sc_client_name listed = client_name input.
Proof.
  intros H Hf Hlen.
  rewrite create_status_check_run in H.
  destruct (store_fault env (store_calls (queries db))); [discriminate|].
  injection H as <- <-.
  rewrite get_status_checks_run. cbn [fst queries status_checks] in *.
  rewrite Hf.
  exists (status_checks db),
    (bson_status_check (status_check_of env input (queries db))).
  rewrite firstn_all2 by (rewrite length_app; cbn; lia).
  repeat split.
Qed.

Lemma created_status_check_is_listed_witness :
  exists earlier listed,
    fst (get_status_checks calm_env
           (snd (create_status_check calm_env {| client_name := lit "mobile" |}
                   sample_database))) = Return (earlier ++ [listed]) /\
    earlier = status_checks sample_database /\
    sc_id listed = uuid4 calm_env 0 /\
    sc_client_name listed = lit "mobile".
Proof.
  apply (created_status_check_is_listed calm_env {| client_name := lit "mobile" |}
           sample_database
           (snd (create_status_check calm_env {| client_name := lit "mobile" |}
                   sample_database))
           (status_check_of calm_env {| client_name := lit "mobile" |}
              (queries sample_database))).
  - vm_compute. reflexivity.
  - reflexivity.
  - vm_compute. lia.
Defined.

(** X19.  The list of status checks holds at most 1000 entries, the first
    1000 stored.  So once 1000 checks are stored, a check that is created
    successfully does not change what is listed. *)
Theorem status_list_stops_at_1000 (env : Env) (input : StatusCheckCreate)
  (db db' : Database) (status_obj : StatusCheck) :
  (1000 <= length (status_checks db))%nat ->
  create_status_check env input db = (Return status_obj, db') ->
  (forall k, store_fault env k = false) ->
  exists listed,
    fst (get_status_checks env db) = Return listed /\
    fst (get_status_checks env db') = Return listed /\
    length listed = 1000%nat /\
    listed = firstn 1000 (status_checks db).
Proof.
  intros Hlen H Hf.
  rewrite create_status_check_run, Hf in H. injection H as _ <-.
  rewrite !get_status_checks_run, !Hf. cbn [fst status_checks].
  exists (firstn 1000 (status_checks db)).
  split; [reflexivity|]. split; [|split; [|reflexivity]].
  - now rewrite firstn_app, (proj2 (Nat.sub_0_le _ _) Hlen), firstn_O, app_nil_r.
  - rewrite length_firstn. lia.
Qed.

Lemma status_list_stops_at_1000_witness :
  exists listed,
    fst (get_status_checks calm_env (crowded_database 1000)) = Return listed /\
    fst (get_status_checks calm_env
           (snd (create_status_check calm_env {| client_name := lit "mobile" |}
                   (crowded_database 1000)))) = Return listed /\
    length listed = 1000%nat /\
    listed = firstn 1000 (status_checks (crowded_database 1000)).
Proof.
  apply (status_list_stops_at_1000 calm_env {| client_name := lit "mobile" |}
           (crowded_database 1000)
           (snd (create_status_check calm_env {| client_name := lit "mobile" |}
                   (crowded_database 1000)))
           (status_check_of calm_env {| client_name := lit "mobile" |}
              (queries (crowded_database 1000)))).
  - unfold crowded_database. cbn [status_checks]. rewrite repeat_length. lia.
  - rewrite create_status_check_run. reflexivity.
  - intro k. reflexivity.
Defined.

(** ** The first page and the stored history *)

Lemma StronglySorted_app_inv {A} (R : A -> A -> Prop) (a b : list A) :
  StronglySorted R (a ++ b) ->
  forall x y, In x a -> In y b -> R x y.
Proof.
  induction a as [|h a IH]; cbn; intros Hs x y Hx Hy; [now elim Hx|].
  inversion Hs as [|? ? Hs' Hh]; subst.
  destruct Hx as [->|Hx]; [|now apply IH].
  rewrite Forall_forall in Hh. apply Hh, in_or_app. now right.
Qed.

(** X20.  The history route called without a skip returns the newest
    records of the user: every stored record of the user is listed, or is
    not newer than any record listed.  Without a limit it lists
    [min(20, total)] records. *)
Theorem history_first_page_is_newest (env : Env) (user_id : str)
  (limit_ : option Z) (w : World) (resp : ChatHistoryResponse) :
  fst (get_health_history env user_id limit_ None w) = Return resp ->
  (limit_ = None -> Z.of_nat (length (messages resp)) = Z.min 20 (total resp)) /\
  (forall d, In d (health_queries w) -> doc_user_id d = user_id ->
     (exists m, to_ChatMessage d = Return m /\ In m (messages resp)) \/
     Forall (fun m => doc_timestamp d <= cm_timestamp m) (messages resp)).
Proof.
  unfold get_health_history. intro H.
  destruct (get_chat_history_return_inv _ _ _ _ _ _ H)
    as (Hl & _ & _ & _ & Hms & ->).
  cbn [Z.to_nat skipn] in Hms.
  destruct (page_messages _ _ Hms) as (Hlen & Hm & Hd & _).
  split.
  - intros ->. rewrite Hlen, length_firstn,
      (Permutation_length (sort_desc_perm _)). lia.
  - intros d Hin Hu.
    set (n := Z.to_nat match limit_ with Some n => n | None => 20 end) in *.
    set (sorted := sort_desc (docs_of user_id (health_queries w))) in *.
    assert (Hsplit : In d (firstn n sorted ++ skipn n sorted)).
    { rewrite firstn_skipn.
      apply (Permutation_in _ (Permutation_sym (sort_desc_perm _))).
      apply docs_of_spec. now split. }
    apply in_app_or in Hsplit. destruct Hsplit as [Hfirst|Hrest].
    + left. destruct (Hd d Hfirst) as (m & Hmin & Hdm). now exists m.
    + right. rewrite Forall_forall. intros m Hmin.
      destruct (Hm m Hmin) as (x & Hx & Hxm).
      apply to_ChatMessage_inv in Hxm. destruct Hxm as (? & _ & ->). cbn.
      pose proof (sort_desc_sorted (docs_of user_id (health_queries w))) as Hs.
      fold sorted in Hs. rewrite <- (firstn_skipn n sorted) in Hs.
      exact (StronglySorted_app_inv _ _ _ Hs x d Hx Hrest).
Qed.

Lemma history_first_page_is_newest_witness :
  (exists m, to_ChatMessage (sample_doc "a" "u1" 10) = Return m /\
             In m [sample_message "c" "u1" 30; sample_message "b" "u1" 20]) \/
  Forall (fun m => doc_timestamp (sample_doc "a" "u1" 10) <= cm_timestamp m)
     [sample_message "c" "u1" 30; sample_message "b" "u1" 20].
Proof.
  apply (proj2 (history_first_page_is_newest calm_env (lit "u1") (Some 2)
                  sample_world
                  {| messages := [sample_message "c" "u1" 30;
                                  sample_message "b" "u1" 20];
                     total := 3 |} eq_refl)).
  - cbn. tauto.
  - reflexivity.
Defined.

(** X21.  A query is single-turn: what the caller gets, and what the
    completion is asked, do not depend on the records already stored. *)
Theorem ask_health_question_ignores_history (env : Env) (query : HealthQuery)
  (w : World) (coll : list Doc) :
  fst (ask_health_question env query (with_collection w coll)) =
  fst (ask_health_question env query w) /\
  llm_log (snd (ask_health_question env query (with_collection w coll))) =
  llm_log (snd (ask_health_question env query w)).
Proof.
  destruct (str_eq_dec (strip (question query)) []) as [E|NE].
  - rewrite !(ask_health_question_rejects _ _ _ E). split; reflexivity.
  - rewrite !(ask_health_question_run _ _ _ NE).
    cbn [with_collection llm_log uuid_draws store_calls clock_reads].
    destruct (completion env _ _ _) as [ai|]; [|split; reflexivity].
    destruct (store_fault env (store_calls w)); [split; reflexivity|].
    destruct ai; split; reflexivity.
Qed.

(** ** Arguments and records the history cannot serve *)

(** X22.  A limit or a skip from [2^63] on is answered with the status-500
    history error after the count was asked for: the find command cannot
    be encoded, and no page is read. *)
Theorem history_oversized_window_is_error (env : Env) (user_id : str)
  (limit_ skip_ : Z) (w : World) :
  int64_bound <= limit_ \/ int64_bound <= skip_ ->
  get_chat_history env user_id limit_ skip_ w =
  (Raise history_error, after_reads 1 w).
Proof.
  intro Hbig. rewrite get_chat_history_run.
  destruct (store_fault env (store_calls w)); [reflexivity|].
  destruct (skip_ <? 0); [reflexivity|].
  destruct (limit_ <? 0); [reflexivity|].
  destruct (Z.leb_spec int64_bound skip_); [reflexivity|].
  destruct (Z.leb_spec int64_bound limit_); [reflexivity|lia].
Qed.

Lemma history_oversized_window_is_error_witness :
  get_chat_history calm_env (lit "u1") (2 ^ 63) 0 sample_world =
    (Raise history_error, after_reads 1 sample_world) /\
  get_chat_history calm_env (lit "u1") 20 (2 ^ 63) sample_world =
    (Raise history_error, after_reads 1 sample_world).
Proof.
  split; apply history_oversized_window_is_error; [left | right];
    vm_compute; discriminate.
Defined.

(** X23.  A page that would hold a record whose answer is not text is
    never returned: the message model refuses the record and the caller
    gets the status-500 history error.  Such a record is what a query
    leaves behind when the completion hands back [None]. *)
Theorem history_refuses_record_without_text (env : Env) (user_id : str)
  (limit_ skip_ : Z) (w : World) (d : Doc) :
  In d (page user_id limit_ skip_ (health_queries w)) ->
  doc_answer d = PyNone ->
  fst (get_chat_history env user_id limit_ skip_ w) = Raise history_error.
Proof.
  intros Hd Hnone. rewrite get_chat_history_run.
  destruct (store_fault env (store_calls w)); [reflexivity|].
  destruct (skip_ <? 0); [reflexivity|].
  destruct (limit_ <? 0); [reflexivity|].
  destruct ((int64_bound <=? skip_) || (int64_bound <=? limit_)); [reflexivity|].
  destruct (store_fault env (S (store_calls w))); [reflexivity|].
  destruct (to_ChatMessages _) as [ms|] eqn:Hms; [|reflexivity].
  exfalso. destruct (page_messages _ _ Hms) as (_ & _ & Hall & _).
  destruct (Hall d Hd) as (m & _ & Hm).
  unfold to_ChatMessage in Hm. rewrite Hnone in Hm. discriminate.
Qed.

Lemma history_refuses_record_without_text_witness :
  fst (get_chat_history calm_env (lit "u1") 20 0 none_answer_world) =
  Raise history_error.
Proof.
  apply (history_refuses_record_without_text calm_env (lit "u1") 20 0
           none_answer_world
           (bson_doc (chat_message_of none_answer_env
                        {| question := lit "What is flu?";
                           user_id := Some (lit "u1") |}
                        sample_world PyNone))).
  - vm_compute. do 3 right. left. reflexivity.
  - reflexivity.
Defined.
